(** * KWP6227 (keyword D3 B0) link-layer driver: a shallow embedding

    The development follows [scantool/diag_l2_kwp6227.c] function by
    function.  C integers are mathematical integers ([Z]) with every
    conversion written out; the driver's calls into the rest of freediag
    (L1 transport, message utilities, clock, ioctl, stderr) are recorded as
    events of a trace, and the values those calls hand back are read from an
    oracle.  A dereference of an invalid pointer, inside the driver itself
    or inside a message utility that is handed a pointer that came from
    nowhere, is a [Fault]. *)

From Stdlib Require Import ZArith List Bool Lia.
Import ListNotations.
Local Open Scope Z_scope.

(** ** C integer conversions *)

(** Conversion to [uint8_t]. *)
Definition u8 (x : Z) : Z := x mod 256.

(** Conversion to [unsigned int] (32 bits). *)
Definition u32 (x : Z) : Z := x mod 2 ^ 32.

(** Conversion to a [w]-bit [size_t]. *)
Definition to_size_t (w x : Z) : Z := x mod 2 ^ w.

(** Every byte satisfies a property that holds on the 256 byte values. *)
Definition all_bytes : list Z := map Z.of_nat (seq 0 256).

(** ** ParityEncoder: [with_parity] *)

(** [enum diag_parity] of diag_tty.h. *)
Inductive diag_parity := diag_par_e | diag_par_o | diag_par_n.

Definition diag_parity_eqb (a b : diag_parity) : bool :=
  match a, b with
  | diag_par_e, diag_par_e | diag_par_o, diag_par_o
  | diag_par_n, diag_par_n => true
  | _, _ => false
  end.

(** The body of [for (i = 0; i < 7; i++) { p ^= c; p <<= 1; }], [p] being a
    [uint8_t]. *)
Fixpoint parity_loop (n : nat) (p c : Z) : Z :=
  match n with
  | O => p
  | S k => parity_loop k (u8 (Z.shiftl (u8 (Z.lxor p c)) 1)) c
  end.

Definition with_parity (c : Z) (eo : diag_parity) : Z :=
  let p := if diag_parity_eqb eo diag_par_o then 1 else 0 in
  let p := parity_loop 7 p c in
  u8 (Z.lor (Z.land c 0x7f) (Z.land p 0x80)).

(** The seed of the parity computation and the parity of the low seven bits,
    as the contract words them. *)
Definition parity_seed (eo : diag_parity) : bool :=
  match eo with diag_par_o => true | _ => false end.

Definition parity7 (c : Z) : bool :=
  fold_right xorb false (map (fun i => Z.testbit c (Z.of_nat i)) (seq 0 7)).

Definition with_parity_ok (eo : diag_parity) (c : Z) : bool :=
  let r := with_parity c eo in
  (0 <=? r) && (r <? 256)
  && (Z.land r 0x7f =? Z.land c 0x7f)
  && Bool.eqb (Z.testbit r 7) (xorb (parity_seed eo) (parity7 c))
  && (Z.lxor (with_parity c diag_par_o) (with_parity c diag_par_e) =? 0x80).

(** ** Declarations the driver takes from freediag's headers

    The headers are not part of the driver: the error codes, the capability
    and init-mode masks, the format tag and the width of [size_t] are
    parameters.  The laws are the ones the driver itself relies on: error
    codes are negative (diag_err.h), and [size_t] has at least the 16 bits
    the C standard asks for. *)
Class DiagHeaders := {
  DIAG_ERR_NOMEM : Z;
  DIAG_ERR_INIT_NOTSUPP : Z;
  DIAG_ERR_PROTO_NOTSUPP : Z;
  DIAG_ERR_BADLEN : Z;
  DIAG_ERR_WRONGKB : Z;
  DIAG_L1_DOESFULLINIT : Z;
  DIAG_L1_DOESL2CKSUM : Z;
  DIAG_L2_TYPE_INITMASK : Z;
  DIAG_L2_TYPE_SLOWINIT : Z;
  DIAG_L1_INITBUS_5BAUD : Z;
  DIAG_FMT_FRAMED : Z;
  size_t_bits : Z;
  DIAG_ERR_NOMEM_neg : DIAG_ERR_NOMEM < 0;
  DIAG_ERR_BADLEN_neg : DIAG_ERR_BADLEN < 0;
  size_t_bits_min : 16 <= size_t_bits
}.

(** A set of values in the style of freediag's headers on an LP64 platform,
    for running the model on concrete inputs. *)
Definition freediag_headers : DiagHeaders.
Proof.
  refine {|
  DIAG_ERR_NOMEM := -3;
  DIAG_ERR_INIT_NOTSUPP := -4;
  DIAG_ERR_PROTO_NOTSUPP := -5;
  DIAG_ERR_BADLEN := -17;
  DIAG_ERR_WRONGKB := -21;
  DIAG_L1_DOESFULLINIT := 0x2000;
  DIAG_L1_DOESL2CKSUM := 0x40;
  DIAG_L2_TYPE_INITMASK := 0x0F;
  DIAG_L2_TYPE_SLOWINIT := 0;
  DIAG_L1_INITBUS_5BAUD := 2;
  DIAG_FMT_FRAMED := 2;
  size_t_bits := 64
|}; lia.
Defined.

(** A timeout error of the transport, used in examples. *)
Definition DIAG_ERR_TIMEOUT : Z := -8.

(** ** Data model *)

(** [struct diag_msg]: the fields the driver touches.  [data] stands for the
    buffer [msg->data] points to; [len] is kept as the separate field it is
    in C. *)
Record diag_msg := {
  fmt : Z;
  dest : Z;
  src : Z;
  len : Z;
  data : list Z;
  rxtime : Z
}.

(** A [struct diag_msg *]: null, a message, or an address that came from
    nowhere (the content of an uninitialised pointer variable). *)
Inductive msgptr := NULL | Msg (m : diag_msg) | Wild (addr : Z).

Definition is_null (p : msgptr) : bool :=
  match p with NULL => true | _ => false end.

Definition is_wild (p : msgptr) : bool :=
  match p with Wild _ => true | _ => false end.

(** [struct diag_l2_kwp6227]: the per-connection session state. *)
Record diag_l2_kwp6227 := {
  srcaddr : Z;
  dstaddr : Z
}.

(** [struct diag_l2_conn], with [diag_link->l1flags] folded in.
    [diag_l2_proto_data] is [None] for a null pointer. *)
Record diag_l2_conn := {
  diag_l2_proto_data : option diag_l2_kwp6227;
  diag_l2_p3min : Z;
  diag_l2_p4min : Z;
  diag_l2_speed : Z;
  diag_l2_kb1 : Z;
  diag_l2_kb2 : Z;
  l1flags : Z
}.

Definition set_proto_data (d : option diag_l2_kwp6227) (c : diag_l2_conn) :=
  {| diag_l2_proto_data := d;
     diag_l2_p3min := diag_l2_p3min c; diag_l2_p4min := diag_l2_p4min c;
     diag_l2_speed := diag_l2_speed c;
     diag_l2_kb1 := diag_l2_kb1 c; diag_l2_kb2 := diag_l2_kb2 c;
     l1flags := l1flags c |}.

Definition set_speed (v : Z) (c : diag_l2_conn) :=
  {| diag_l2_proto_data := diag_l2_proto_data c;
     diag_l2_p3min := diag_l2_p3min c; diag_l2_p4min := diag_l2_p4min c;
     diag_l2_speed := v;
     diag_l2_kb1 := diag_l2_kb1 c; diag_l2_kb2 := diag_l2_kb2 c;
     l1flags := l1flags c |}.

Definition set_keybytes (k1 k2 : Z) (c : diag_l2_conn) :=
  {| diag_l2_proto_data := diag_l2_proto_data c;
     diag_l2_p3min := diag_l2_p3min c; diag_l2_p4min := diag_l2_p4min c;
     diag_l2_speed := diag_l2_speed c;
     diag_l2_kb1 := k1; diag_l2_kb2 := k2;
     l1flags := l1flags c |}.

(** [struct diag_serial_settings] and the argument of an ioctl. *)
Inductive diag_databits := diag_databits_8 | diag_databits_7.
Inductive diag_stopbits := diag_stopbits_1 | diag_stopbits_2.

Record diag_serial_settings := {
  speed : Z;
  databits : diag_databits;
  stopbits : diag_stopbits;
  parflag : diag_parity
}.

Inductive ioctl_cmd :=
| DIAG_IOCTL_SETSPEED (set : diag_serial_settings)
| DIAG_IOCTL_IFLUSH
| DIAG_IOCTL_INITBUS (type addr : Z).

(** The lines the driver prints on stderr. *)
Inductive stderr_line :=
| CantDoKwp6227
| WarnTesterAddress (source : Z)
| WrongKeybytes (kb1 kb2 : Z)
| StopRequestFailed.

(** ** Effects *)

(** One event per call that leaves the driver. *)
Inductive event :=
| EvStderr (l : stderr_line)
| EvMillisleep (ms : Z)
| EvL1Send (frame : list Z) (p4min : Z)
| EvL1Recv (bufsize timeout : Z)
| EvAllocMsg (datalen : Z)
| EvChronoms
| EvCallback (m : diag_msg)
| EvDupMsg (m : diag_msg)
| EvFreeMsg (p : msgptr)
| EvCalloc
| EvFree (dp : diag_l2_kwp6227)
| EvIoctl (cmd : ioctl_cmd).

(** What the collaborators answer during one call of a driver operation, and
    the indeterminate contents of the locals the driver does not initialise.
    Each operation calls each collaborator at most once. *)
Record oracle := {
  o_l1_send : Z;                 (* return value of diag_l1_send *)
  o_l1_recv : Z;                 (* return value of diag_l1_recv *)
  o_l1_recv_bytes : list Z;      (* bytes diag_l1_recv stores in the buffer *)
  o_allocmsg_ok : bool;          (* diag_allocmsg finds memory *)
  o_chronoms : Z;                (* diag_os_chronoms(0) *)
  o_dupmsg_ok : bool;            (* diag_dupsinglemsg finds memory *)
  o_calloc_ok : bool;            (* diag_calloc finds memory *)
  o_setspeed : Z;                (* diag_l2_ioctl(DIAG_IOCTL_SETSPEED) *)
  o_iflush : Z;                  (* diag_l2_ioctl(DIAG_IOCTL_IFLUSH) *)
  o_initbus : Z;                 (* diag_l2_ioctl(DIAG_IOCTL_INITBUS) *)
  o_reported_kb : Z * Z;         (* key bytes the bus layer leaves in the
                                    connection after the bus init *)
  o_stack_buf : list Z;          (* uint8_t buf[3 + 14 + 1], uninitialised *)
  o_stack_rmsg : msgptr          (* struct diag_msg *rmsg, uninitialised *)
}.

Record state := {
  conn : diag_l2_conn;
  trace : list event
}.

Inductive fault := NullDeref | OutOfBounds (n : Z) | InvalidFree (addr : Z).

Inductive outcome (A : Type) :=
| Ret (a : A) (s : state)
| Fault (f : fault) (s : state).
Arguments Ret {A} a s.
Arguments Fault {A} f s.

(** The state an operation leaves behind, however it ended. *)
Definition final_state {A} (r : outcome A) : state :=
  match r with Ret _ s => s | Fault _ s => s end.

Definition M (A : Type) : Type := oracle -> state -> outcome A.

Definition ret {A} (a : A) : M A := fun _ s => Ret a s.

Definition bind {A B} (m : M A) (k : A -> M B) : M B :=
  fun o s =>
    match m o s with
    | Ret a s' => k a o s'
    | Fault f s' => Fault f s'
    end.

Notation "x <- m ;; k" := (bind m (fun x => k))
  (at level 61, m at next level, right associativity).
Notation "' p <- m ;; k" := (bind m (fun x => match x with p => k end))
  (at level 61, p pattern, m at next level, right associativity).
Notation "m ;; k" := (bind m (fun _ => k))
  (at level 61, right associativity).

Definition raise {A} (f : fault) : M A := fun _ s => Fault f s.
Definition ask {A} (f : oracle -> A) : M A := fun o s => Ret (f o) s.
Definition get_conn : M diag_l2_conn := fun _ s => Ret (conn s) s.
Definition modify_conn (f : diag_l2_conn -> diag_l2_conn) : M unit :=
  fun _ s => Ret tt {| conn := f (conn s); trace := trace s |}.
Definition emit (e : event) : M unit :=
  fun _ s => Ret tt {| conn := conn s; trace := trace s ++ [e] |}.

(** ** Memory the driver reads and writes itself *)

(** [uint8_t buf[3 + 14 + 1]]: eighteen cells holding whatever the stack
    held. *)
Definition BUFSIZE : Z := 3 + 14 + 1.

Definition stack_buf (o : oracle) : list Z :=
  firstn 18 (o_stack_buf o ++ repeat 0 18).

(** [buf[i] = v]. *)
Definition store (buf : list Z) (i : nat) (v : Z) : list Z :=
  firstn i buf ++ v :: skipn (S i) buf.

(** [memcpy(dst + off, src, n)]: the new contents of [dst]; a fault when
    [src] does not hold [n] bytes or [dst] has no room for them. *)
Definition memcpy (dst : list Z) (off : nat) (src : list Z) (n : Z)
  : M (list Z) :=
  if (n <=? Z.of_nat (length src))
     && (Z.of_nat off + n <=? Z.of_nat (length dst))
  then ret (firstn off dst ++ firstn (Z.to_nat n) src
            ++ skipn (off + Z.to_nat n) dst)
  else raise (OutOfBounds n).

(** [dp->field], [dp] being the connection's session-state pointer. *)
Definition deref (dp : option diag_l2_kwp6227) : M diag_l2_kwp6227 :=
  match dp with
  | Some d => ret d
  | None => raise NullDeref
  end.

(** ** The collaborators *)

(** Modelled from the spec: the error helper [diag_iseterr] (diag_general.c)
    is not part of the driver; failures "are returned as structured error
    codes for the caller to handle", so it hands back the code it is
    given. *)
Definition diag_iseterr (code : Z) : Z := code.

Definition fprintf_stderr (l : stderr_line) : M unit := emit (EvStderr l).

Definition diag_os_millisleep (ms : Z) : M unit := emit (EvMillisleep ms).

Definition diag_os_chronoms : M Z := emit EvChronoms ;; ask o_chronoms.

(** [diag_l1_send(dl0d, NULL, buf, n, p4min)]: [frame] is the first [n]
    bytes of [buf]. *)
Definition diag_l1_send (frame : list Z) (p4min : Z) : M Z :=
  emit (EvL1Send frame p4min) ;; ask o_l1_send.

(** [diag_l1_recv(dl0d, NULL, buf, bufsize, timeout)]: the return value and
    the buffer afterwards; the transport stores at most [bufsize] bytes. *)
Definition diag_l1_recv (buf : list Z) (bufsize timeout : Z)
  : M (Z * list Z) :=
  emit (EvL1Recv bufsize timeout) ;;
  rv <- ask o_l1_recv ;;
  bytes <- ask o_l1_recv_bytes ;;
  let stored := firstn (Z.to_nat bufsize) bytes in
  ret (rv, stored ++ skipn (length stored) buf).

(** Modelled from the spec: the allocation primitive [diag_allocmsg]
    (diag_general.c) is not part of the driver; a message is "created by the
    collaborator's allocation primitive sized to the decoded payload
    length", and the driver "fails with an allocation error if the message
    cannot be created". *)
Definition diag_allocmsg (datalen : Z) : M (option diag_msg) :=
  emit (EvAllocMsg datalen) ;;
  ok <- ask o_allocmsg_ok ;;
  ret (if ok
       then Some {| fmt := 0; dest := 0; src := 0; len := datalen;
                    data := repeat 0 (Z.to_nat datalen); rxtime := 0 |}
       else None).

(** Modelled from the spec: the duplication primitive [diag_dupsinglemsg]
    (diag_general.c) is not part of the driver; the reply is captured "via
    an internal duplication of the first message delivered", and the
    duplication may fail. *)
Definition diag_dupsinglemsg (m : diag_msg) : M msgptr :=
  emit (EvDupMsg m) ;;
  ok <- ask o_dupmsg_ok ;;
  ret (if ok then Msg m else NULL).

(** Modelled from the spec: the release primitive [diag_freemsg]
    (diag_general.c) is not part of the driver; a message is "released
    exactly once by its holder", the holder being the one that got it from
    the allocation or the duplication primitive.  The routine goes through
    the pointer it is given: handed an address that came from nowhere, it
    faults. *)
Definition diag_freemsg (p : msgptr) : M unit :=
  emit (EvFreeMsg p) ;;
  match p with
  | Wild addr => raise (InvalidFree addr)
  | _ => ret tt
  end.

(** [diag_calloc(&dp, 1)]: a zeroed session state, or nothing. *)
Definition diag_calloc : M (option diag_l2_kwp6227) :=
  emit EvCalloc ;;
  ok <- ask o_calloc_ok ;;
  ret (if ok then Some {| srcaddr := 0; dstaddr := 0 |} else None).

Definition free (dp : diag_l2_kwp6227) : M unit := emit (EvFree dp).

(** Modelled from the spec: [diag_l2_ioctl] (diag_l2.c) is not part of the
    driver; the connection "carries ... the two key bytes reported by the
    bus layer", so the bus initialisation leaves the pair it reports in the
    connection. *)
Definition diag_l2_ioctl (cmd : ioctl_cmd) : M Z :=
  emit (EvIoctl cmd) ;;
  match cmd with
  | DIAG_IOCTL_SETSPEED _ => ask o_setspeed
  | DIAG_IOCTL_IFLUSH => ask o_iflush
  | DIAG_IOCTL_INITBUS _ _ =>
      kb <- ask o_reported_kb ;;
      modify_conn (set_keybytes (fst kb) (snd kb)) ;;
      ask o_initbus
  end.

(** ** The driver *)

Section Driver.
Context {hdr : DiagHeaders}.

(** [dl2p_6227_send], lines 71-95. *)
Definition dl2p_6227_send (msg : diag_msg) : M Z :=
  buf <- ask stack_buf ;;
  d_l2_conn <- get_conn ;;
  let dp := diag_l2_proto_data d_l2_conn in
  if (len msg <? 1) || (len msg >? 14) then
    ret (diag_iseterr DIAG_ERR_BADLEN)
  else
    let buf := store buf 0 (u8 (u32 (0x80 + len msg + 1))) in
    b1 <- (if negb (dest msg =? 0) then ret (dest msg)
           else d <- deref dp ;; ret (dstaddr d)) ;;
    let buf := store buf 1 (u8 b1) in
    b2 <- (if negb (src msg =? 0) then ret (src msg)
           else d <- deref dp ;; ret (srcaddr d)) ;;
    let buf := store buf 2 (u8 b2) in
    buf <- memcpy buf 3 (data msg) (len msg) ;;
    diag_os_millisleep (diag_l2_p3min d_l2_conn) ;;
    rv <- diag_l1_send (firstn (Z.to_nat (len msg + 3)) buf)
                       (diag_l2_p4min d_l2_conn) ;;
    ret (if negb (rv =? 0) then diag_iseterr rv else 0).

(** [dl2p_6227_recv], lines 97-126.  [handle] is what the callback's
    [void *handle] points to; its final contents are returned next to the
    return value. *)
Definition dl2p_6227_recv {T : Type} (timeout : Z)
    (callback : option (T -> diag_msg -> M T)) (handle : T) : M (Z * T) :=
  buf <- ask stack_buf ;;
  r <- diag_l1_recv buf BUFSIZE (u32 (timeout + 100)) ;;
  let rv := fst r in
  let buf := snd r in
  if rv <? 0 then ret (rv, handle)
  else
    let n := to_size_t size_t_bits (rv - 4) in
    a <- diag_allocmsg n ;;
    match a with
    | None => ret (diag_iseterr DIAG_ERR_NOMEM, handle)
    | Some msg =>
        d <- memcpy (data msg) 0 (skipn 3 buf) n ;;
        t <- diag_os_chronoms ;;
        let msg := {| fmt := DIAG_FMT_FRAMED;
                      dest := nth 1 buf 0;
                      src := nth 2 buf 0;
                      len := len msg;
                      data := d;
                      rxtime := t |} in
        handle <- match callback with
                  | Some cb => emit (EvCallback msg) ;; cb handle msg
                  | None => ret handle
                  end ;;
        diag_freemsg (Msg msg) ;;
        ret (0, handle)
    end.

(** [dl2p_6227_request_callback], lines 128-133: [*out = dup(in)]. *)
Definition dl2p_6227_request_callback (out : msgptr) (inm : diag_msg)
  : M msgptr :=
  diag_dupsinglemsg inm.

(** Modelled from the spec: [diag_l2_send] (diag_l2.c) is not part of the
    driver; the transaction "sends a message via FrameCodec.send". *)
Definition diag_l2_send (msg : diag_msg) : M Z := dl2p_6227_send msg.

(** [dl2p_6227_request], lines 135-159: the returned pointer and [*errval].
    The local [rmsg] has no initialiser. *)
Definition dl2p_6227_request (msg : diag_msg) : M (msgptr * Z) :=
  rmsg <- ask o_stack_rmsg ;;
  rv <- diag_l2_send msg ;;
  if rv <? 0 then ret (NULL, rv)
  else
    r <- dl2p_6227_recv 1000 (Some dl2p_6227_request_callback) rmsg ;;
    let rv := fst r in
    let rmsg := snd r in
    if rv <? 0 then ret (rmsg, rv)
    else if is_null rmsg then ret (rmsg, DIAG_ERR_NOMEM)
    else ret (rmsg, 0).

(** The [err:] label of [dl2p_6227_startcomms], lines 223-226. *)
Definition startcomms_err (dp : diag_l2_kwp6227) (rv : Z) : M Z :=
  free dp ;;
  modify_conn (set_proto_data None) ;;
  ret (diag_iseterr rv).

(** [dl2p_6227_startcomms], lines 161-227. *)
Definition dl2p_6227_startcomms (flags bitrate target source : Z) : M Z :=
  d_l2_conn <- get_conn ;;
  if (Z.land (l1flags d_l2_conn) DIAG_L1_DOESFULLINIT =? 0)
     || (Z.land (l1flags d_l2_conn) DIAG_L1_DOESL2CKSUM =? 0)
  then
    fprintf_stderr CantDoKwp6227 ;;
    ret (diag_iseterr DIAG_ERR_PROTO_NOTSUPP)
  else if negb (Z.land flags DIAG_L2_TYPE_INITMASK =? DIAG_L2_TYPE_SLOWINIT)
  then ret (diag_iseterr DIAG_ERR_INIT_NOTSUPP)
  else
    a <- diag_calloc ;;
    match a with
    | None => ret (diag_iseterr DIAG_ERR_NOMEM)
    | Some zeroed =>
        modify_conn (set_proto_data (Some zeroed)) ;;
        (if negb (source =? 0x13)
         then fprintf_stderr (WarnTesterAddress source) else ret tt) ;;
        let dp := {| srcaddr := u8 source; dstaddr := u8 target |} in
        modify_conn (set_proto_data (Some dp)) ;;
        let bitrate := if bitrate =? 0 then 10400 else bitrate in
        modify_conn (set_speed bitrate) ;;
        let set := {| speed := bitrate; databits := diag_databits_8;
                      stopbits := diag_stopbits_1; parflag := diag_par_n |} in
        rv <- diag_l2_ioctl (DIAG_IOCTL_SETSPEED set) ;;
        if negb (rv =? 0) then startcomms_err dp rv
        else
          diag_l2_ioctl DIAG_IOCTL_IFLUSH ;;
          diag_os_millisleep 300 ;;
          rv <- diag_l2_ioctl
                  (DIAG_IOCTL_INITBUS DIAG_L1_INITBUS_5BAUD
                                      (with_parity target diag_par_o)) ;;
          if rv <? 0 then startcomms_err dp rv
          else
            modify_conn (set_keybytes 0xd3 0xb0) ;;
            c <- get_conn ;;
            if negb (diag_l2_kb1 c =? 0xd3) || negb (diag_l2_kb2 c =? 0xb0)
            then
              fprintf_stderr (WrongKeybytes (diag_l2_kb1 c) (diag_l2_kb2 c)) ;;
              startcomms_err dp DIAG_ERR_WRONGKB
            else ret 0
    end.

(** The one-byte requests of [dl2p_6227_stopcomms] and [dl2p_6227_timeout]:
    [len = 1], default addresses. *)
Definition control_msg (b : Z) : diag_msg :=
  {| fmt := 0; dest := 0; src := 0; len := 1; data := [b]; rxtime := 0 |}.

(** [dl2p_6227_stopcomms] after the request, lines 243-256. *)
Definition stopcomms_finish (rxmsg : msgptr) (errval : Z) : M Z :=
  (if is_null rxmsg || negb (errval =? 0)
   then fprintf_stderr StopRequestFailed ;; diag_os_millisleep 5000
   else ret tt) ;;
  (if negb (is_null rxmsg) then diag_freemsg rxmsg else ret tt) ;;
  pX <- get_conn ;;
  match diag_l2_proto_data pX with
  | Some dp => free dp ;; modify_conn (set_proto_data None)
  | None => ret tt
  end ;;
  ret 0.

(** [dl2p_6227_stopcomms], lines 229-257. *)
Definition dl2p_6227_stopcomms : M Z :=
  r <- dl2p_6227_request (control_msg 0xa0) ;;
  stopcomms_finish (fst r) (snd r).

(** [dl2p_6227_timeout], lines 259-275. *)
Definition dl2p_6227_timeout : M unit :=
  r <- dl2p_6227_request (control_msg 0xa1) ;;
  if negb (is_null (fst r)) then diag_freemsg (fst r) else ret tt.

End Driver.

(** ** Reading traces *)

Definition is_release (e : event) : bool :=
  match e with EvFree _ => true | _ => false end.

(** How many times a trace releases session state. *)
Definition releases (t : list event) : nat := length (filter is_release t).

Definition is_l1_send (e : event) : bool :=
  match e with EvL1Send _ _ => true | _ => false end.

Definition is_l1_recv (e : event) : bool :=
  match e with EvL1Recv _ _ => true | _ => false end.

Definition is_calloc (e : event) : bool :=
  match e with EvCalloc => true | _ => false end.

(** What [dl2p_6227_stopcomms] does after its request, as the contract words
    it: warn and wait five seconds when there is no reply or an error,
    release the reply if there is one, release the session state if the
    connection still refers to one. *)
Definition stop_wait (rxmsg : msgptr) (errval : Z) : list event :=
  if is_null rxmsg || negb (errval =? 0)
  then [EvStderr StopRequestFailed; EvMillisleep 5000] else [].

Definition stop_release_reply (rxmsg : msgptr) : list event :=
  if is_null rxmsg then [] else [EvFreeMsg rxmsg].

Definition stop_release_state (d : option diag_l2_kwp6227) : list event :=
  match d with Some dp => [EvFree dp] | None => [] end.

(** ** The contracts in the words of the specification *)

Definition append_trace (s : state) (t : list event) : state :=
  {| conn := conn s; trace := trace s ++ t |}.

(** The address byte the frame carries: the message's own when it is not
    zero, the session's otherwise. *)
Definition frame_dest (msg : diag_msg) (dp : diag_l2_kwp6227) : Z :=
  if dest msg =? 0 then dstaddr dp else dest msg.

Definition frame_src (msg : diag_msg) (dp : diag_l2_kwp6227) : Z :=
  if src msg =? 0 then srcaddr dp else src msg.

Section Contracts.
Context {hdr : DiagHeaders}.

(** The message a raw read of [o_l1_recv o] bytes decodes to: payload of
    [rv - 4] bytes from raw offset 3, destination raw byte 1, source raw
    byte 2, the receive timestamp, the frame-delimited format. *)
Definition decoded_msg (o : oracle) : diag_msg :=
  {| fmt := DIAG_FMT_FRAMED;
     dest := nth 1 (o_l1_recv_bytes o) 0;
     src := nth 2 (o_l1_recv_bytes o) 0;
     len := o_l1_recv o - 4;
     data := firstn (Z.to_nat (o_l1_recv o - 4)) (skipn 3 (o_l1_recv_bytes o));
     rxtime := o_chronoms o |}.

(** What a successful receive does up to the delivery: the timed raw read
    with the padded timeout, the allocation, the timestamp, the call of the
    callback. *)
Definition recv_events (timeout : Z) (o : oracle) : list event :=
  [EvL1Recv BUFSIZE (u32 (timeout + 100)); EvAllocMsg (o_l1_recv o - 4);
   EvChronoms; EvCallback (decoded_msg o)].

(** The session state start-session stores, and the bit rate it settles
    on. *)
Definition session_of (target source : Z) : diag_l2_kwp6227 :=
  {| srcaddr := u8 source; dstaddr := u8 target |}.

Definition start_bitrate (bitrate : Z) : Z :=
  if bitrate =? 0 then 10400 else bitrate.

(** The key-byte contract as the specification states it: a run whose bus
    initialisation succeeds and reports a pair other than D3 B0 fails with
    the wrong-keybytes error and leaves the connection without session
    state. *)
Definition rejects_wrong_keybytes (flags bitrate target source : Z)
    (o : oracle) (s : state) : Prop :=
  0 <= o_initbus o ->
  o_reported_kb o <> (0xd3, 0xb0) ->
  exists s',
    dl2p_6227_startcomms flags bitrate target source o s
    = Ret DIAG_ERR_WRONGKB s'
    /\ diag_l2_proto_data (conn s') = None.

End Contracts.

(** ** Footprints *)

(** [m] leaves the connection as it found it and emits only events that
    satisfy [P], however it ends. *)
Definition only_emits {A : Type} (P : event -> bool) (m : M A) : Prop :=
  forall o s,
    conn (final_state (m o s)) = conn s
    /\ exists t, trace (final_state (m o s)) = trace s ++ t
                 /\ forallb P t = true.

Definition is_send_event (e : event) : bool :=
  match e with EvMillisleep _ | EvL1Send _ _ => true | _ => false end.

Definition is_recv_event (e : event) : bool :=
  match e with
  | EvL1Recv _ _ | EvAllocMsg _ | EvChronoms | EvCallback _ | EvDupMsg _
  | EvFreeMsg _ => true
  | _ => false
  end.

Definition is_request_event (e : event) : bool :=
  is_send_event e || is_recv_event e.

(** ** Sample inputs *)

Definition quiet_oracle : oracle :=
  {| o_l1_send := 0; o_l1_recv := DIAG_ERR_TIMEOUT; o_l1_recv_bytes := [];
     o_allocmsg_ok := true; o_chronoms := 1234; o_dupmsg_ok := true;
     o_calloc_ok := true; o_setspeed := 0; o_iflush := 0; o_initbus := 0;
     o_reported_kb := (0, 0); o_stack_buf := []; o_stack_rmsg := NULL |}.

Definition sample_session : diag_l2_kwp6227 :=
  {| srcaddr := 0x13; dstaddr := 0x10 |}.

Definition sample_conn (d : option diag_l2_kwp6227) : diag_l2_conn :=
  {| diag_l2_proto_data := d; diag_l2_p3min := 5; diag_l2_p4min := 0;
     diag_l2_speed := 10400; diag_l2_kb1 := 0; diag_l2_kb2 := 0;
     l1flags := 0x2040 |}.

Definition sample_state (d : option diag_l2_kwp6227) : state :=
  {| conn := sample_conn d; trace := [] |}.

Definition sample_request : diag_msg :=
  {| fmt := 0; dest := 0; src := 0x55; len := 3; data := [1; 2; 3];
     rxtime := 0 |}.


(** The transport delivers a seven-byte frame: header, two addresses, three
    payload bytes, checksum. *)
Definition reply_oracle : oracle :=
  {| o_l1_send := 0; o_l1_recv := 7;
     o_l1_recv_bytes := [0x84; 0x13; 0x10; 0xAA; 0xBB; 0xCC; 0x99];
     o_allocmsg_ok := true; o_chronoms := 1234; o_dupmsg_ok := true;
     o_calloc_ok := true; o_setspeed := 0; o_iflush := 0; o_initbus := 0;
     o_reported_kb := (0xd3, 0xb0); o_stack_buf := repeat 0x5A 18;
     o_stack_rmsg := Wild 0xDEADBEEF |}.

(** The transport delivers two bytes only. *)
Definition short_read_oracle : oracle :=
  {| o_l1_send := 0; o_l1_recv := 2; o_l1_recv_bytes := [0x84; 0x13];
     o_allocmsg_ok := true; o_chronoms := 1234; o_dupmsg_ok := true;
     o_calloc_ok := true; o_setspeed := 0; o_iflush := 0; o_initbus := 0;
     o_reported_kb := (0xd3, 0xb0); o_stack_buf := repeat 0x5A 18;
     o_stack_rmsg := Wild 0xDEADBEEF |}.

(** The ECU does not answer: the timed receive reports a timeout, and the
    stack slot of [rmsg] holds a stale address. *)
Definition lost_reply_oracle : oracle :=
  {| o_l1_send := 0; o_l1_recv := DIAG_ERR_TIMEOUT; o_l1_recv_bytes := [];
     o_allocmsg_ok := true; o_chronoms := 1234; o_dupmsg_ok := true;
     o_calloc_ok := true; o_setspeed := 0; o_iflush := 0; o_initbus := 0;
     o_reported_kb := (0xd3, 0xb0); o_stack_buf := repeat 0x5A 18;
     o_stack_rmsg := Wild 0xDEADBEEF |}.

(** The connection after a first, answered stop request. *)
Definition after_first_stop : state :=
  final_state (dl2p_6227_stopcomms (hdr := freediag_headers) reply_oracle
                 (sample_state (Some sample_session))).

(** A transport with both capabilities whose bus initialisation succeeds
    and reports the key bytes 08 08 of another protocol. *)
Definition other_keybytes_oracle : oracle :=
  {| o_l1_send := 0; o_l1_recv := DIAG_ERR_TIMEOUT; o_l1_recv_bytes := [];
     o_allocmsg_ok := true; o_chronoms := 1234; o_dupmsg_ok := true;
     o_calloc_ok := true; o_setspeed := 0; o_iflush := 0; o_initbus := 0;
     o_reported_kb := (0x08, 0x08); o_stack_buf := repeat 0x5A 18;
     o_stack_rmsg := NULL |}.

(** A connection over a transport that performs the full initialisation but
    does not generate checksums. *)
Definition no_checksum_state : state :=
  {| conn := {| diag_l2_proto_data := None; diag_l2_p3min := 5;
                diag_l2_p4min := 0; diag_l2_speed := 0;
                diag_l2_kb1 := 0; diag_l2_kb2 := 0; l1flags := 0x2000 |};
     trace := [] |}.

(** ** Further vocabulary for the properties of the driver *)

(** The number of one bits among the eight bits of a byte. *)
Definition popcount8 (c : Z) : nat :=
  length (filter (fun i => Z.testbit c (Z.of_nat i)) (seq 0 8)).

(** The total parity [with_parity] achieves, and what it does to a byte
    that went through it before or that differs in the top bit only. *)
Definition with_parity_total_ok (c : Z) : bool :=
  Nat.odd (popcount8 (with_parity c diag_par_o))
  && Nat.even (popcount8 (with_parity c diag_par_e))
  && Nat.even (popcount8 (with_parity c diag_par_n)).

Definition with_parity_reencode_ok (eo eo' : diag_parity) (c : Z) : bool :=
  (with_parity (with_parity c eo') eo =? with_parity c eo)
  && (with_parity (Z.lxor c 0x80) eo =? with_parity c eo).

(** How many times a trace asks for session state. *)
Definition allocations (t : list event) : nat := length (filter is_calloc t).

(** The frame [dl2p_6227_send] hands to the transport for a message on a
    session. *)
Definition wire_frame (msg : diag_msg) (dp : diag_l2_kwp6227) : list Z :=
  u8 (u32 (0x80 + len msg + 1))
  :: u8 (frame_dest msg dp) :: u8 (frame_src msg dp) :: data msg.

(** The oracle whose timed receive delivers [bytes] and returns [rv]. *)
Definition with_recv (rv : Z) (bytes : list Z) (o : oracle) : oracle :=
  {| o_l1_send := o_l1_send o;
     o_l1_recv := rv;
     o_l1_recv_bytes := bytes;
     o_allocmsg_ok := o_allocmsg_ok o;
     o_chronoms := o_chronoms o;
     o_dupmsg_ok := o_dupmsg_ok o;
     o_calloc_ok := o_calloc_ok o;
     o_setspeed := o_setspeed o;
     o_iflush := o_iflush o;
     o_initbus := o_initbus o;
     o_reported_kb := o_reported_kb o;
     o_stack_buf := o_stack_buf o;
     o_stack_rmsg := o_stack_rmsg o |}.

(** The events of a handshake that goes through: allocation, the warning
    for a tester address other than 0x13, speed set-up at 8N1, input flush,
    the settle delay, the 5-baud initialisation with the odd-parity
    address. *)
Section HandshakeEvents.
Context {hdr : DiagHeaders}.

Definition tester_warning (source : Z) : list event :=
  if source =? 0x13 then [] else [EvStderr (WarnTesterAddress source)].

Definition setspeed_event (bitrate : Z) : event :=
  EvIoctl (DIAG_IOCTL_SETSPEED
             {| speed := start_bitrate bitrate; databits := diag_databits_8;
                stopbits := diag_stopbits_1; parflag := diag_par_n |}).

Definition initbus_event (target : Z) : event :=
  EvIoctl (DIAG_IOCTL_INITBUS DIAG_L1_INITBUS_5BAUD
                              (with_parity target diag_par_o)).

Definition handshake_events (bitrate target source : Z) : list event :=
  [EvCalloc] ++ tester_warning source
  ++ [setspeed_event bitrate; EvIoctl DIAG_IOCTL_IFLUSH; EvMillisleep 300;
      initbus_event target].

End HandshakeEvents.

(** ** Further sample inputs *)

(** The transport refuses the frame. *)
Definition send_error_oracle : oracle :=
  {| o_l1_send := -16; o_l1_recv := 7;
     o_l1_recv_bytes := [0x84; 0x13; 0x10; 0xAA; 0xBB; 0xCC; 0x99];
     o_allocmsg_ok := true; o_chronoms := 1234; o_dupmsg_ok := true;
     o_calloc_ok := true; o_setspeed := 0; o_iflush := 0; o_initbus := 0;
     o_reported_kb := (0xd3, 0xb0); o_stack_buf := repeat 0x5A 18;
     o_stack_rmsg := Wild 0xDEADBEEF |}.

(** No memory for a message. *)
Definition no_memory_oracle : oracle :=
  {| o_l1_send := 0; o_l1_recv := 7;
     o_l1_recv_bytes := [0x84; 0x13; 0x10; 0xAA; 0xBB; 0xCC; 0x99];
     o_allocmsg_ok := false; o_chronoms := 1234; o_dupmsg_ok := false;
     o_calloc_ok := false; o_setspeed := 0; o_iflush := 0; o_initbus := 0;
     o_reported_kb := (0xd3, 0xb0); o_stack_buf := repeat 0x5A 18;
     o_stack_rmsg := NULL |}.

(** The bus initialisation fails after a good speed set-up. *)
Definition initbus_error_oracle : oracle :=
  {| o_l1_send := 0; o_l1_recv := DIAG_ERR_TIMEOUT; o_l1_recv_bytes := [];
     o_allocmsg_ok := true; o_chronoms := 1234; o_dupmsg_ok := true;
     o_calloc_ok := true; o_setspeed := 0; o_iflush := 0; o_initbus := -8;
     o_reported_kb := (0, 0); o_stack_buf := repeat 0x5A 18;
     o_stack_rmsg := NULL |}.

(** A message that names both of its addresses. *)
Definition addressed_request : diag_msg :=
  {| fmt := 0; dest := 0x7A; src := 0x55; len := 2; data := [0xB9; 0xF0];
     rxtime := 0 |}.

(** A message that leaves both addresses to the session. *)
Definition default_request : diag_msg :=
  {| fmt := 0; dest := 0; src := 0; len := 2; data := [0xB9; 0xF0];
     rxtime := 0 |}.

Section DecodedFrames.
Context {hdr : DiagHeaders}.

(** The message a frame with addresses [d], [sr] and payload [payload]
    decodes to at time [t]. *)
Definition payload_msg (d sr : Z) (payload : list Z) (t : Z) : diag_msg :=
  {| fmt := DIAG_FMT_FRAMED; dest := d; src := sr;
     len := Z.of_nat (length payload); data := payload; rxtime := t |}.

(** The events of a receive up to the delivery of that message. *)
Definition delivery_events (timeout : Z) (m : diag_msg) : list event :=
  [EvL1Recv BUFSIZE (u32 (timeout + 100)); EvAllocMsg (len m); EvChronoms;
   EvCallback m].

End DecodedFrames.

(** A callback that counts the messages it is given. *)
Definition counting_callback (n : nat) (m : diag_msg) : M nat :=
  fun _ s => Ret (S n) s.

(** The connection a handshake that goes through leaves behind. *)
Definition started_conn (bitrate target source : Z) (c : diag_l2_conn)
  : diag_l2_conn :=
  {| diag_l2_proto_data := Some (session_of target source);
     diag_l2_p3min := diag_l2_p3min c;
     diag_l2_p4min := diag_l2_p4min c;
     diag_l2_speed := start_bitrate bitrate;
     diag_l2_kb1 := 0xd3;
     diag_l2_kb2 := 0xb0;
     l1flags := l1flags c |}.

Section BackOutEvents.
Context {hdr : DiagHeaders}.

(** The events of a handshake that fails after the allocation: at the speed
    set-up, or at the bus initialisation. *)
Definition backout_events (bitrate target source : Z) (o : oracle)
  : list event :=
  [EvCalloc] ++ tester_warning source
  ++ (if o_setspeed o =? 0
      then [setspeed_event bitrate; EvIoctl DIAG_IOCTL_IFLUSH;
            EvMillisleep 300; initbus_event target]
      else [setspeed_event bitrate])
  ++ [EvFree (session_of target source)].

End BackOutEvents.

(** The speed set-up fails. *)
Definition setspeed_error_oracle : oracle :=
  {| o_l1_send := 0; o_l1_recv := DIAG_ERR_TIMEOUT; o_l1_recv_bytes := [];
     o_allocmsg_ok := true; o_chronoms := 1234; o_dupmsg_ok := true;
     o_calloc_ok := true; o_setspeed := -6; o_iflush := 0; o_initbus := 0;
     o_reported_kb := (0, 0); o_stack_buf := repeat 0x5A 18;
     o_stack_rmsg := NULL |}.

(** The sixteen-byte message of the specification's scenario. *)
Definition oversized_request : diag_msg :=
  {| fmt := 0; dest := 0; src := 0; len := 16; data := repeat 0xFF 16;
     rxtime := 0 |}.

(** * Properties *)

(** ** Integers and bytes *)

Lemma u8_range x : 0 <= u8 x < 256.
Proof. unfold u8. apply Z.mod_pos_bound. lia. Qed.

Lemma u8_small x : 0 <= x < 256 -> u8 x = x.
Proof. intros H. unfold u8. now apply Z.mod_small. Qed.

Lemma all_bytes_spec c : 0 <= c < 256 -> In c all_bytes.
Proof.
  intros H. unfold all_bytes. apply in_map_iff.
  exists (Z.to_nat c). split; [lia|]. apply in_seq. lia.
Qed.

Lemma forall_byte (P : Z -> bool) :
  forallb P all_bytes = true -> forall c, 0 <= c < 256 -> P c = true.
Proof.
  intros H c Hc. rewrite forallb_forall in H. now apply H, all_bytes_spec.
Qed.

(** ** ParityEncoder *)

(** C9.  For every byte [c] and parity mode, [with_parity] returns a byte
    whose low seven bits are those of [c] and whose top bit is the parity of
    the low seven bits of [c] seeded by 1 for odd parity and by 0 otherwise;
    the odd and the even result for the same byte differ exactly in the top
    bit. *)
Theorem with_parity_spec (c : Z) (eo : diag_parity) :
  0 <= c < 256 ->
  0 <= with_parity c eo < 256
  /\ Z.land (with_parity c eo) 0x7f = Z.land c 0x7f
  /\ Z.testbit (with_parity c eo) 7 = xorb (parity_seed eo) (parity7 c)
  /\ Z.lxor (with_parity c diag_par_o) (with_parity c diag_par_e) = 0x80.
Proof.
  intros Hc.
  assert (H : with_parity_ok eo c = true).
  { apply forall_byte; [|exact Hc]. destruct eo; vm_compute; reflexivity. }
  unfold with_parity_ok in H.
  repeat (apply andb_prop in H; destruct H as [H ?]).
  apply Z.leb_le in H. apply Z.ltb_lt in H3.
  apply Z.eqb_eq in H2, H0. apply Bool.eqb_prop in H1.
  repeat split; assumption.
Qed.

Lemma with_parity_spec_witness :
  0 <= 0x42 < 256
  /\ with_parity 0x42 diag_par_o = 0xC2
  /\ with_parity 0x42 diag_par_e = 0x42
  /\ Z.lxor (with_parity 0x42 diag_par_o) (with_parity 0x42 diag_par_e) = 0x80.
Proof.
  split; [lia|]. split; [reflexivity|]. split; [reflexivity|].
  apply (with_parity_spec 0x42 diag_par_o). lia.
Defined.

(** ** Buffers *)

Lemma stack_buf_length o : length (stack_buf o) = 18%nat.
Proof.
  unfold stack_buf. rewrite firstn_length_le; [reflexivity|].
  rewrite length_app, repeat_length. lia.
Qed.

(** Three header stores and the payload copy leave the frame at the front of
    the buffer. *)
Lemma frame_in_buf (buf payload : list Z) (b0 b1 b2 : Z) o s :
  length buf = 18%nat ->
  (length payload <= 14)%nat ->
  exists rest,
    memcpy (store (store (store buf 0 b0) 1 b1) 2 b2) 3 payload
           (Z.of_nat (length payload)) o s
    = Ret (b0 :: b1 :: b2 :: payload ++ rest) s.
Proof.
  intros Hbuf Hpay.
  destruct buf as [|x0 [|x1 [|x2 rest]]]; try discriminate.
  cbn [store firstn skipn app].
  assert (Hrest : length rest = 15%nat) by (cbn [length] in Hbuf; lia).
  exists (skipn (length payload) rest).
  unfold memcpy. cbn [length].
  replace ((Z.of_nat (length payload) <=? Z.of_nat (length payload))
           && (Z.of_nat 3 + Z.of_nat (length payload)
               <=? Z.of_nat (S (S (S (length rest)))))) with true
    by (symmetry; apply andb_true_intro; split; apply Z.leb_le; lia).
  unfold ret. rewrite Nat2Z.id, firstn_all.
  reflexivity.
Qed.

Lemma firstn_frame (payload rest : list Z) (b0 b1 b2 : Z) :
  firstn (Z.to_nat (Z.of_nat (length payload) + 3))
         (b0 :: b1 :: b2 :: payload ++ rest)
  = b0 :: b1 :: b2 :: payload.
Proof.
  replace (Z.to_nat (Z.of_nat (length payload) + 3))
    with (S (S (S (length payload)))) by lia.
  cbn [firstn]. rewrite firstn_app, firstn_all, Nat.sub_diag.
  cbn [firstn]. now rewrite app_nil_r.
Qed.

Lemma header_byte (L : Z) :
  1 <= L <= 14 -> u8 (u32 (0x80 + L + 1)) = Z.lor 0x80 (L + 1).
Proof.
  intros H.
  assert (HL : In L [1;2;3;4;5;6;7;8;9;10;11;12;13;14]) by (cbn [In]; lia).
  cbn [In] in HL.
  repeat (destruct HL as [<-|HL]; [reflexivity|]). contradiction.
Qed.

(** ** FrameCodec: send *)

Section Send.
Context {hdr : DiagHeaders}.

Lemma send_bad_length_run (msg : diag_msg) (o : oracle) (s : state) :
  len msg < 1 \/ len msg > 14 ->
  dl2p_6227_send msg o s = Ret DIAG_ERR_BADLEN s.
Proof.
  intros H. unfold dl2p_6227_send, bind, ask, get_conn.
  replace ((len msg <? 1) || (len msg >? 14)) with true; [reflexivity|].
  symmetry. apply orb_true_iff. destruct H; [left|right]; lia.
Qed.

(** C3.  A message whose payload length is outside 1..14 (0, or 15 and more)
    makes [dl2p_6227_send] return the length-violation error; the connection
    and the trace are as before, so nothing reached the transport. *)
Theorem send_rejects_bad_length (msg : diag_msg) (o : oracle) (s : state) :
  len msg < 1 \/ len msg > 14 ->
  dl2p_6227_send msg o s = Ret DIAG_ERR_BADLEN s
  /\ filter is_l1_send (trace (final_state (dl2p_6227_send msg o s)))
     = filter is_l1_send (trace s).
Proof.
  intros H. pose proof (send_bad_length_run msg o s H) as E.
  now rewrite E.
Qed.

(** With a payload of 1..14 bytes and a live session, [dl2p_6227_send]
    waits P3min, hands one frame to the transport and returns what the
    transport returned. *)
Lemma send_run (msg : diag_msg) (dp : diag_l2_kwp6227) (o : oracle)
    (s : state) :
  1 <= len msg <= 14 ->
  Z.of_nat (length (data msg)) = len msg ->
  diag_l2_proto_data (conn s) = Some dp ->
  dl2p_6227_send msg o s
  = Ret (o_l1_send o)
        {| conn := conn s;
           trace := (trace s ++ [EvMillisleep (diag_l2_p3min (conn s))])
                    ++ [EvL1Send (u8 (u32 (0x80 + len msg + 1))
                                  :: u8 (frame_dest msg dp)
                                  :: u8 (frame_src msg dp)
                                  :: data msg)
                                 (diag_l2_p4min (conn s))] |}.
Proof.
  intros HL Hdata Hdp.
  unfold dl2p_6227_send.
  unfold bind at 1. unfold ask at 1.
  unfold bind at 1. unfold get_conn at 1.
  replace ((len msg <? 1) || (len msg >? 14)) with false
    by (symmetry; apply orb_false_iff; split; lia).
  rewrite Hdp.
  assert (Hb1 : forall k : Z -> M Z,
    bind (if negb (dest msg =? 0) then ret (dest msg)
          else d <- deref (Some dp) ;; ret (dstaddr d)) k o s
    = k (frame_dest msg dp) o s).
  { intros k. unfold frame_dest, bind, deref, ret.
    destruct (dest msg =? 0); reflexivity. }
  assert (Hb2 : forall k : Z -> M Z,
    bind (if negb (src msg =? 0) then ret (src msg)
          else d <- deref (Some dp) ;; ret (srcaddr d)) k o s
    = k (frame_src msg dp) o s).
  { intros k. unfold frame_src, bind, deref, ret.
    destruct (src msg =? 0); reflexivity. }
  rewrite Hb1, Hb2.
  destruct (frame_in_buf (stack_buf o) (data msg)
              (u8 (u32 (0x80 + len msg + 1)))
              (u8 (frame_dest msg dp)) (u8 (frame_src msg dp)) o s
              (stack_buf_length o) ltac:(lia)) as [rest Hcpy].
  rewrite Hdata in Hcpy.
  unfold bind at 1. rewrite Hcpy.
  unfold diag_os_millisleep, diag_l1_send, bind, emit, ask, ret.
  cbn [conn trace].
  rewrite <- Hdata, firstn_frame.
  destruct (o_l1_send o =? 0) eqn:E; cbn [negb]; unfold diag_iseterr.
  - apply Z.eqb_eq in E. now rewrite E.
  - reflexivity.
Qed.

(** C1.  For a payload of [L] bytes, [L] in 1..14, [dl2p_6227_send] hands
    the transport the frame [0x80 | (L+1)], destination, source, then the
    [L] payload bytes in order; each address is the message's own field when
    that is not zero and the session's stored address when it is. *)
Theorem send_builds_frame (msg : diag_msg) (dp : diag_l2_kwp6227)
    (o : oracle) (s : state) :
  1 <= len msg <= 14 ->
  Z.of_nat (length (data msg)) = len msg ->
  diag_l2_proto_data (conn s) = Some dp ->
  0 <= dest msg < 256 -> 0 <= src msg < 256 ->
  0 <= dstaddr dp < 256 -> 0 <= srcaddr dp < 256 ->
  exists s',
    dl2p_6227_send msg o s = Ret (o_l1_send o) s'
    /\ conn s' = conn s
    /\ trace s'
       = trace s
         ++ [EvMillisleep (diag_l2_p3min (conn s));
             EvL1Send (Z.lor 0x80 (len msg + 1)
                       :: (if dest msg =? 0 then dstaddr dp else dest msg)
                       :: (if src msg =? 0 then srcaddr dp else src msg)
                       :: data msg)
                      (diag_l2_p4min (conn s))].
Proof.
  intros HL Hdata Hdp Hd Hs Hdd Hds.
  eexists. split; [apply (send_run msg dp o s HL Hdata Hdp)|].
  cbn [conn trace]. split; [reflexivity|].
  rewrite <- app_assoc. cbn [app].
  rewrite header_byte by exact HL.
  rewrite !u8_small; [reflexivity| |].
  - unfold frame_src. destruct (src msg =? 0); assumption.
  - unfold frame_dest. destruct (dest msg =? 0); assumption.
Qed.

End Send.

Lemma send_rejects_bad_length_witness :
  dl2p_6227_send (hdr := freediag_headers)
    {| fmt := 0; dest := 0; src := 0; len := 16;
       data := repeat 0xFF 16; rxtime := 0 |}
    quiet_oracle (sample_state (Some sample_session))
  = Ret (-17) (sample_state (Some sample_session)).
Proof.
  apply (send_rejects_bad_length (hdr := freediag_headers)). cbn. lia.
Defined.

Lemma send_builds_frame_witness :
  exists s',
    dl2p_6227_send (hdr := freediag_headers) sample_request quiet_oracle
                   (sample_state (Some sample_session)) = Ret 0 s'
    /\ conn s' = sample_conn (Some sample_session)
    /\ trace s' = [EvMillisleep 5; EvL1Send [0x84; 0x10; 0x55; 1; 2; 3] 0].
Proof.
  apply (send_builds_frame (hdr := freediag_headers) sample_request
           sample_session quiet_oracle (sample_state (Some sample_session)));
    cbn; try reflexivity; lia.
Defined.

(** ** FrameCodec: receive *)

Lemma recv_buffer (bytes stack : list Z) :
  length stack = 18%nat ->
  (4 <= length bytes <= 18)%nat ->
  let stored := firstn (Z.to_nat BUFSIZE) bytes in
  let buf := stored ++ skipn (length stored) stack in
  length buf = 18%nat
  /\ nth 1 buf 0 = nth 1 bytes 0
  /\ nth 2 buf 0 = nth 2 bytes 0
  /\ firstn (length bytes - 4) (skipn 3 buf)
     = firstn (length bytes - 4) (skipn 3 bytes).
Proof.
  intros Hst Hb stored buf.
  assert (Hstored : stored = bytes).
  { unfold stored. apply firstn_all2. change (Z.to_nat BUFSIZE) with 18%nat.
    lia. }
  unfold buf. rewrite Hstored. clear buf stored Hstored.
  repeat split.
  - rewrite length_app, length_skipn. lia.
  - apply app_nth1. lia.
  - apply app_nth1. lia.
  - rewrite skipn_app, firstn_app, length_skipn.
    replace (length bytes - 4 - (length bytes - 3))%nat with 0%nat by lia.
    cbn [firstn]. apply app_nil_r.
Qed.

(** Copying [n] bytes over a fresh [n]-byte payload leaves exactly these
    bytes. *)
Lemma memcpy_fresh (src0 : list Z) (n : nat) o s :
  (n <= length src0)%nat ->
  memcpy (repeat 0 n) 0 src0 (Z.of_nat n) o s = Ret (firstn n src0) s.
Proof.
  intros Hn. unfold memcpy. rewrite repeat_length.
  replace ((Z.of_nat n <=? Z.of_nat (length src0))
           && (Z.of_nat 0 + Z.of_nat n <=? Z.of_nat n)) with true
    by (symmetry; apply andb_true_intro; split; apply Z.leb_le; lia).
  unfold ret. rewrite Nat2Z.id. cbn [firstn app Nat.add].
  rewrite skipn_all2 by (rewrite repeat_length; lia).
  now rewrite app_nil_r.
Qed.

Section Recv.
Context {hdr : DiagHeaders}.

Lemma pow2_size_t : 2 ^ 16 <= 2 ^ size_t_bits.
Proof. apply Z.pow_le_mono_r; [lia|apply size_t_bits_min]. Qed.

Lemma to_size_t_small (x : Z) :
  0 <= x < 2 ^ 16 -> to_size_t size_t_bits x = x.
Proof.
  intros H. unfold to_size_t. apply Z.mod_small.
  pose proof pow2_size_t. lia.
Qed.

(** A small negative value wraps to the top of the [size_t] range. *)
Lemma to_size_t_wrap (x : Z) :
  - 2 ^ 16 <= x < 0 -> to_size_t size_t_bits x = 2 ^ size_t_bits + x.
Proof.
  intros H. unfold to_size_t. pose proof pow2_size_t.
  symmetry. apply Z.mod_unique with (q := -1); lia.
Qed.

(** The collaborators, one step each. *)
Lemma diag_l1_recv_run (buf : list Z) (bufsize timeout : Z) o s :
  diag_l1_recv buf bufsize timeout o s
  = Ret (o_l1_recv o,
         firstn (Z.to_nat bufsize) (o_l1_recv_bytes o)
         ++ skipn (length (firstn (Z.to_nat bufsize) (o_l1_recv_bytes o))) buf)
        (append_trace s [EvL1Recv bufsize timeout]).
Proof. reflexivity. Qed.

Lemma diag_allocmsg_run (n : Z) o s :
  diag_allocmsg n o s
  = Ret (if o_allocmsg_ok o
         then Some {| fmt := 0; dest := 0; src := 0; len := n;
                      data := repeat 0 (Z.to_nat n); rxtime := 0 |}
         else None)
        (append_trace s [EvAllocMsg n]).
Proof. reflexivity. Qed.

(** A successful read of at least four bytes: the run of
    [dl2p_6227_recv] around the callback. *)
Lemma recv_run {T : Type} (timeout : Z) (cb : T -> diag_msg -> M T)
    (h h' : T) (o : oracle) (s s' : state) :
  4 <= o_l1_recv o <= 18 ->
  Z.of_nat (length (o_l1_recv_bytes o)) = o_l1_recv o ->
  o_allocmsg_ok o = true ->
  cb h (decoded_msg o) o (append_trace s (recv_events timeout o)) = Ret h' s' ->
  dl2p_6227_recv timeout (Some cb) h o s
  = Ret (0, h') (append_trace s' [EvFreeMsg (Msg (decoded_msg o))]).
Proof.
  intros Hrv Hlen Hok Hcb.
  destruct (recv_buffer (o_l1_recv_bytes o) (stack_buf o)
              (stack_buf_length o) ltac:(lia))
    as (Hbuf & Hn1 & Hn2 & Hpay).
  replace (length (o_l1_recv_bytes o) - 4)%nat
    with (Z.to_nat (o_l1_recv o - 4)) in Hpay by lia.
  unfold dl2p_6227_recv.
  unfold bind at 1, ask at 1.
  unfold bind at 1. rewrite diag_l1_recv_run. cbn [fst snd].
  replace (o_l1_recv o <? 0) with false by (symmetry; apply Z.ltb_ge; lia).
  rewrite to_size_t_small by lia.
  unfold bind at 1. rewrite diag_allocmsg_run, Hok.
  cbn [data len].
  unfold bind at 1.
  replace (o_l1_recv o - 4) with (Z.of_nat (Z.to_nat (o_l1_recv o - 4)))
    at 2 by lia.
  rewrite memcpy_fresh by (rewrite length_skipn, Hbuf; lia).
  rewrite Hpay, Hn1, Hn2.
  unfold diag_os_chronoms, diag_freemsg, bind, emit, ask, ret.
  fold (decoded_msg o). cbn [append_trace conn trace].
  unfold append_trace, recv_events in Hcb. cbn [conn trace] in Hcb.
  repeat rewrite <- app_assoc. cbn [app].
  rewrite Hcb. reflexivity.
Qed.

(** C2.  A raw read of [rv >= 4] bytes decodes to a message whose payload is
    the [rv - 4] bytes from raw offset 3, whose destination is raw byte 1
    and whose source is raw byte 2; the message is allocated, stamped with
    the receive time, marked frame-delimited, handed to the callback before
    [dl2p_6227_recv] goes on, and released once the callback is back. *)
Theorem recv_decodes {T : Type} (timeout : Z) (cb : T -> diag_msg -> M T)
    (h h' : T) (o : oracle) (s s' : state) :
  4 <= o_l1_recv o <= 18 ->
  Z.of_nat (length (o_l1_recv_bytes o)) = o_l1_recv o ->
  o_allocmsg_ok o = true ->
  cb h (decoded_msg o) o (append_trace s (recv_events timeout o)) = Ret h' s' ->
  dl2p_6227_recv timeout (Some cb) h o s
  = Ret (0, h') (append_trace s' [EvFreeMsg (Msg (decoded_msg o))])
  /\ Z.of_nat (length (data (decoded_msg o))) = o_l1_recv o - 4
  /\ data (decoded_msg o)
     = firstn (Z.to_nat (o_l1_recv o - 4)) (skipn 3 (o_l1_recv_bytes o))
  /\ dest (decoded_msg o) = nth 1 (o_l1_recv_bytes o) 0
  /\ src (decoded_msg o) = nth 2 (o_l1_recv_bytes o) 0
  /\ fmt (decoded_msg o) = DIAG_FMT_FRAMED
  /\ rxtime (decoded_msg o) = o_chronoms o.
Proof.
  intros Hrv Hlen Hok Hcb.
  split; [now apply recv_run|].
  split; [|repeat split].
  cbn [decoded_msg data]. rewrite firstn_length_le; [lia|].
  rewrite length_skipn. lia.
Qed.

(** X24.  A null callback is skipped: the decoded message is allocated,
    stamped and released all the same, and 0 is returned. *)
Lemma recv_without_callback {T : Type} (timeout : Z) (h : T) (o : oracle)
    (s : state) :
  4 <= o_l1_recv o <= 18 ->
  Z.of_nat (length (o_l1_recv_bytes o)) = o_l1_recv o ->
  o_allocmsg_ok o = true ->
  dl2p_6227_recv timeout None h o s
  = Ret (0, h)
        (append_trace s
           [EvL1Recv BUFSIZE (u32 (timeout + 100));
            EvAllocMsg (o_l1_recv o - 4); EvChronoms;
            EvFreeMsg (Msg (decoded_msg o))]).
Proof.
  intros Hrv Hlen Hok.
  destruct (recv_buffer (o_l1_recv_bytes o) (stack_buf o)
              (stack_buf_length o) ltac:(lia))
    as (Hbuf & Hn1 & Hn2 & Hpay).
  replace (length (o_l1_recv_bytes o) - 4)%nat
    with (Z.to_nat (o_l1_recv o - 4)) in Hpay by lia.
  unfold dl2p_6227_recv.
  unfold bind at 1, ask at 1.
  unfold bind at 1. rewrite diag_l1_recv_run. cbn [fst snd].
  replace (o_l1_recv o <? 0) with false by (symmetry; apply Z.ltb_ge; lia).
  rewrite to_size_t_small by lia.
  unfold bind at 1. rewrite diag_allocmsg_run, Hok.
  cbn [data len].
  unfold bind at 1.
  replace (o_l1_recv o - 4) with (Z.of_nat (Z.to_nat (o_l1_recv o - 4)))
    at 2 by lia.
  rewrite memcpy_fresh by (rewrite length_skipn, Hbuf; lia).
  rewrite Hpay, Hn1, Hn2.
  unfold diag_os_chronoms, diag_freemsg, bind, emit, ask, ret.
  fold (decoded_msg o). cbn [append_trace conn trace].
  repeat rewrite <- app_assoc. reflexivity.
Qed.

(** The receive buffer keeps its eighteen cells whatever the transport
    stored. *)
Lemma recv_buf_length (bytes stack : list Z) :
  length stack = 18%nat ->
  length (firstn (Z.to_nat BUFSIZE) bytes
          ++ skipn (length (firstn (Z.to_nat BUFSIZE) bytes)) stack)
  = 18%nat.
Proof.
  intros Hst. rewrite length_app, length_skipn, Hst.
  pose proof (firstn_le_length (Z.to_nat BUFSIZE) bytes) as Hle.
  change (Z.to_nat BUFSIZE) with 18%nat in *. lia.
Qed.

(** C10.  [dl2p_6227_recv] has no guard for a short read: when the raw read
    succeeds with [rv] in 0..3, [(size_t)(rv - 4)] wraps to
    [2^w + rv - 4], within four of the largest [size_t]; that value is the
    size asked of [diag_allocmsg], and, when the allocation succeeds, the
    length of the copy out of the fifteen bytes after the header, which
    runs out of bounds. *)
Theorem recv_short_read {T : Type} (timeout : Z)
    (callback : option (T -> diag_msg -> M T)) (h : T) (o : oracle)
    (s : state) :
  0 <= o_l1_recv o <= 3 ->
  let n := 2 ^ size_t_bits + o_l1_recv o - 4 in
  let s1 := append_trace s [EvL1Recv BUFSIZE (u32 (timeout + 100));
                            EvAllocMsg n] in
  to_size_t size_t_bits (o_l1_recv o - 4) = n
  /\ 2 ^ size_t_bits - 4 <= n < 2 ^ size_t_bits
  /\ dl2p_6227_recv timeout callback h o s
     = if o_allocmsg_ok o
       then Fault (OutOfBounds n) s1
       else Ret (DIAG_ERR_NOMEM, h) s1.
Proof.
  intros Hrv n s1.
  assert (Hn : to_size_t size_t_bits (o_l1_recv o - 4) = n).
  { unfold n. rewrite to_size_t_wrap by lia. lia. }
  split; [exact Hn|]. split; [unfold n; lia|].
  unfold dl2p_6227_recv.
  unfold bind at 1, ask at 1.
  unfold bind at 1. rewrite diag_l1_recv_run. cbn [fst snd].
  replace (o_l1_recv o <? 0) with false by (symmetry; apply Z.ltb_ge; lia).
  rewrite Hn.
  unfold bind at 1. rewrite diag_allocmsg_run.
  assert (Hs1 : append_trace
                  (append_trace s [EvL1Recv BUFSIZE (u32 (timeout + 100))])
                  [EvAllocMsg n] = s1).
  { unfold s1, append_trace. cbn [conn trace]. now rewrite <- app_assoc. }
  rewrite Hs1.
  destruct (o_allocmsg_ok o); [|reflexivity].
  unfold bind at 1. unfold memcpy.
  rewrite length_skipn, recv_buf_length by apply stack_buf_length.
  replace (n <=? Z.of_nat (18 - 3)) with false; [reflexivity|].
  symmetry. apply Z.leb_gt. pose proof pow2_size_t. unfold n. lia.
Qed.

End Recv.

Section RecvExamples.
#[local] Existing Instance freediag_headers.

Lemma recv_decodes_witness :
  data (decoded_msg reply_oracle)
  = [0xAA; 0xBB; 0xCC]
  /\ dl2p_6227_recv 50
       (Some dl2p_6227_request_callback) NULL reply_oracle
       (sample_state (Some sample_session))
     = Ret (0, Msg (decoded_msg reply_oracle))
           (append_trace
              (append_trace
                 (append_trace (sample_state (Some sample_session))
                               (recv_events 50 reply_oracle))
                 [EvDupMsg (decoded_msg reply_oracle)])
              [EvFreeMsg (Msg (decoded_msg reply_oracle))]).
Proof.
  split; [reflexivity|].
  apply (recv_decodes 50
           dl2p_6227_request_callback NULL (Msg (decoded_msg reply_oracle))
           reply_oracle (sample_state (Some sample_session)));
    [cbn; lia | reflexivity | reflexivity | reflexivity].
Defined.

Lemma recv_short_read_witness :
  dl2p_6227_recv 50
    (Some dl2p_6227_request_callback) NULL short_read_oracle
    (sample_state (Some sample_session))
  = Fault (OutOfBounds (2 ^ 64 - 2))
          (append_trace (sample_state (Some sample_session))
             [EvL1Recv 18 150; EvAllocMsg (2 ^ 64 - 2)]).
Proof.
  assert (Hrv : 0 <= o_l1_recv short_read_oracle <= 3) by (cbn; lia).
  exact (proj2 (proj2 (recv_short_read 50
                         (Some dl2p_6227_request_callback) NULL
                         short_read_oracle
                         (sample_state (Some sample_session)) Hrv))).
Defined.

End RecvExamples.

(** ** Footprints of the monadic operations *)

Lemma releases_app (t1 t2 : list event) :
  releases (t1 ++ t2) = (releases t1 + releases t2)%nat.
Proof. unfold releases. now rewrite filter_app, length_app. Qed.

Lemma releases_none (P : event -> bool) (t : list event) :
  (forall e, P e = true -> is_release e = false) ->
  forallb P t = true -> releases t = 0%nat.
Proof.
  intros HP Ht. unfold releases. induction t as [|e t IH]; [reflexivity|].
  cbn [forallb] in Ht. apply andb_prop in Ht as [He Ht].
  cbn [filter]. rewrite (HP e He). now apply IH.
Qed.

Section Footprints.
Context {A B : Type} (P : event -> bool).

Lemma only_emits_ret (a : A) : only_emits P (ret a).
Proof.
  intros o s. split; [reflexivity|]. exists []. now rewrite app_nil_r.
Qed.

Lemma only_emits_ask (f : oracle -> A) : only_emits P (ask f).
Proof.
  intros o s. split; [reflexivity|]. exists []. now rewrite app_nil_r.
Qed.

Lemma only_emits_raise (f : fault) : only_emits P (@raise A f).
Proof.
  intros o s. split; [reflexivity|]. exists []. now rewrite app_nil_r.
Qed.

Lemma only_emits_bind (m : M A) (k : A -> M B) :
  only_emits P m -> (forall a, only_emits P (k a)) -> only_emits P (bind m k).
Proof.
  intros Hm Hk o s. destruct (Hm o s) as (Hc & t & Ht & HP).
  unfold bind. destruct (m o s) as [a s1|f s1]; cbn [final_state] in *.
  - destruct (Hk a o s1) as (Hc' & t' & Ht' & HP').
    split; [congruence|]. exists (t ++ t'). split.
    + now rewrite Ht', Ht, app_assoc.
    + rewrite forallb_app, HP, HP'. reflexivity.
  - split; [exact Hc|]. now exists t.
Qed.

Lemma only_emits_weaken (Q : event -> bool) (m : M A) :
  (forall e, P e = true -> Q e = true) -> only_emits P m -> only_emits Q m.
Proof.
  intros HPQ Hm o s. destruct (Hm o s) as (Hc & t & Ht & HP).
  split; [exact Hc|]. exists t. split; [exact Ht|].
  rewrite forallb_forall in *. auto.
Qed.

End Footprints.

Lemma only_emits_emit (P : event -> bool) (e : event) :
  P e = true -> only_emits P (emit e).
Proof.
  intros He o s. split; [reflexivity|]. exists [e]. split; [reflexivity|].
  cbn [forallb]. now rewrite He.
Qed.

Lemma only_emits_get_conn (P : event -> bool) : only_emits P get_conn.
Proof.
  intros o s. split; [reflexivity|]. exists []. now rewrite app_nil_r.
Qed.

Lemma only_emits_memcpy (P : event -> bool) dst off src0 n :
  only_emits P (memcpy dst off src0 n).
Proof.
  unfold memcpy.
  destruct ((n <=? Z.of_nat (length src0))
            && (Z.of_nat off + n <=? Z.of_nat (length dst)));
    [apply only_emits_ret | apply only_emits_raise].
Qed.

Lemma only_emits_deref (P : event -> bool) dp : only_emits P (deref dp).
Proof.
  destruct dp; [apply only_emits_ret | apply only_emits_raise].
Qed.

Create HintDb footprint.
#[export] Hint Resolve only_emits_ret only_emits_ask only_emits_raise
  only_emits_get_conn only_emits_memcpy only_emits_deref : footprint.

(** Splits a run into its binds and settles the leaves. *)
Ltac footprint :=
  repeat first
    [ apply only_emits_bind; [|intro]
    | apply only_emits_emit; reflexivity
    | solve [auto with footprint]
    | match goal with
      | |- only_emits _ (if ?b then _ else _) => destruct b
      | |- only_emits _ (match ?x with _ => _ end) => destruct x
      end ].

(** ** RequestResponse *)

Section Request.
Context {hdr : DiagHeaders}.

Lemma send_footprint (msg : diag_msg) :
  only_emits is_send_event (dl2p_6227_send msg).
Proof.
  unfold dl2p_6227_send, diag_os_millisleep, diag_l1_send. footprint.
Qed.

Lemma recv_footprint {T : Type} (timeout : Z)
    (callback : option (T -> diag_msg -> M T)) (h : T) :
  (forall cb h' m, callback = Some cb -> only_emits is_recv_event (cb h' m)) ->
  only_emits is_recv_event (dl2p_6227_recv timeout callback h).
Proof.
  intros Hcb.
  unfold dl2p_6227_recv, diag_l1_recv, diag_allocmsg, diag_os_chronoms,
    diag_freemsg.
  footprint.
Qed.

Lemma request_callback_footprint (out : msgptr) (m : diag_msg) :
  only_emits is_recv_event (dl2p_6227_request_callback out m).
Proof.
  unfold dl2p_6227_request_callback, diag_dupsinglemsg. footprint.
Qed.

(** A transaction leaves the connection alone and releases no session
    state, however it ends. *)
Lemma request_footprint (msg : diag_msg) :
  only_emits is_request_event (dl2p_6227_request msg).
Proof.
  unfold dl2p_6227_request, diag_l2_send.
  apply only_emits_bind; [auto with footprint|intro rmsg].
  apply only_emits_bind.
  { apply only_emits_weaken with (P := is_send_event);
      [|apply send_footprint].
    intros e He. unfold is_request_event. now rewrite He. }
  intro rv. destruct (rv <? 0); [auto with footprint|].
  apply only_emits_bind.
  { apply only_emits_weaken with (P := is_recv_event).
    - intros e He. unfold is_request_event. rewrite He. apply orb_true_r.
    - apply recv_footprint. intros cb h' m [= <-].
      apply request_callback_footprint. }
  intro r. footprint.
Qed.

(** If the send phase fails, the transaction ends where the send ended:
    null reply, the error of the send, no receive. *)
Lemma request_send_failure (msg : diag_msg) (o : oracle) (s s1 : state)
    (rv : Z) :
  dl2p_6227_send msg o s = Ret rv s1 -> rv < 0 ->
  dl2p_6227_request msg o s = Ret (NULL, rv) s1
  /\ filter is_l1_recv (trace s1) = filter is_l1_recv (trace s).
Proof.
  intros Hsend Hrv. split.
  - unfold dl2p_6227_request, diag_l2_send, bind, ask. rewrite Hsend.
    now replace (rv <? 0) with true by (symmetry; apply Z.ltb_lt; lia).
  - destruct (send_footprint msg o s) as (_ & t & Ht & HP).
    rewrite Hsend in Ht. cbn [final_state] in Ht. rewrite Ht, filter_app.
    replace (filter is_l1_recv t) with (@nil event); [now rewrite app_nil_r|].
    clear Ht. induction t as [|e t IH]; [reflexivity|].
    cbn [forallb] in HP. apply andb_prop in HP as [He HP].
    cbn [filter]. destruct e; try discriminate He; cbn [is_l1_recv]; auto.
Qed.

(** If the timed receive fails, the transaction hands back the error and
    whatever the local [rmsg] held: nothing was ever stored in it. *)
Lemma request_recv_failure (msg : diag_msg) (o : oracle) (s s1 : state)
    (rv : Z) :
  dl2p_6227_send msg o s = Ret rv s1 -> 0 <= rv ->
  o_l1_recv o < 0 ->
  dl2p_6227_request msg o s
  = Ret (o_stack_rmsg o, o_l1_recv o)
        (append_trace s1 [EvL1Recv BUFSIZE 1100]).
Proof.
  intros Hsend Hrv Hrecv.
  unfold dl2p_6227_request, diag_l2_send.
  unfold bind at 1, ask at 1. unfold bind at 1. rewrite Hsend.
  replace (rv <? 0) with false by (symmetry; apply Z.ltb_ge; lia).
  unfold bind at 1. unfold dl2p_6227_recv.
  unfold bind at 1, ask at 1. unfold bind at 1.
  rewrite diag_l1_recv_run. cbn [fst snd].
  replace (o_l1_recv o <? 0) with true by (symmetry; apply Z.ltb_lt; lia).
  unfold ret. cbn [fst snd].
  now replace (o_l1_recv o <? 0) with true by (symmetry; apply Z.ltb_lt; lia).
Qed.

(** The same happens when the receive fails for want of memory. *)
Lemma request_alloc_failure (msg : diag_msg) (o : oracle) (s s1 : state)
    (rv : Z) :
  dl2p_6227_send msg o s = Ret rv s1 -> 0 <= rv ->
  0 <= o_l1_recv o ->
  o_allocmsg_ok o = false ->
  exists s2,
    dl2p_6227_request msg o s = Ret (o_stack_rmsg o, DIAG_ERR_NOMEM) s2.
Proof.
  intros Hsend Hrv Hrecv Hok.
  unfold dl2p_6227_request, diag_l2_send.
  unfold bind at 1, ask at 1. unfold bind at 1. rewrite Hsend.
  replace (rv <? 0) with false by (symmetry; apply Z.ltb_ge; lia).
  unfold bind at 1. unfold dl2p_6227_recv.
  unfold bind at 1, ask at 1. unfold bind at 1.
  rewrite diag_l1_recv_run. cbn [fst snd].
  replace (o_l1_recv o <? 0) with false by (symmetry; apply Z.ltb_ge; lia).
  unfold bind at 1. rewrite diag_allocmsg_run, Hok.
  unfold ret, diag_iseterr. cbn [fst snd].
  replace (DIAG_ERR_NOMEM <? 0) with true
    by (symmetry; apply Z.ltb_lt, DIAG_ERR_NOMEM_neg).
  eexists. reflexivity.
Qed.

(** X25.  A message of a bad length goes no further than the length check
    of the send: the transaction returns null and the length error, and
    the connection and the trace are as before. *)
Lemma request_bad_length (msg : diag_msg) (o : oracle) (s : state) :
  len msg < 1 \/ len msg > 14 ->
  dl2p_6227_request msg o s = Ret (NULL, DIAG_ERR_BADLEN) s.
Proof.
  intros H.
  apply request_send_failure; [now apply send_bad_length_run|].
  apply DIAG_ERR_BADLEN_neg.
Qed.

(** The callback of the transaction duplicates the message it is given. *)
Lemma request_callback_run (out : msgptr) (m : diag_msg) o s :
  dl2p_6227_request_callback out m o s
  = Ret (if o_dupmsg_ok o then Msg m else NULL) (append_trace s [EvDupMsg m]).
Proof. reflexivity. Qed.

(** If the reply arrives, the transaction returns its duplicate with error
    code zero, or null with the allocation error when the duplication
    fails. *)
Lemma request_reply (msg : diag_msg) (o : oracle) (s s1 : state) (rv : Z) :
  dl2p_6227_send msg o s = Ret rv s1 -> 0 <= rv ->
  4 <= o_l1_recv o <= 18 ->
  Z.of_nat (length (o_l1_recv_bytes o)) = o_l1_recv o ->
  o_allocmsg_ok o = true ->
  dl2p_6227_request msg o s
  = Ret (if o_dupmsg_ok o then (Msg (decoded_msg o), 0)
         else (NULL, DIAG_ERR_NOMEM))
        (append_trace
           (append_trace (append_trace s1 (recv_events 1000 o))
                         [EvDupMsg (decoded_msg o)])
           [EvFreeMsg (Msg (decoded_msg o))]).
Proof.
  intros Hsend Hrv Hrecv Hlen Hok.
  unfold dl2p_6227_request, diag_l2_send.
  unfold bind at 1, ask at 1. unfold bind at 1. rewrite Hsend.
  replace (rv <? 0) with false by (symmetry; apply Z.ltb_ge; lia).
  unfold bind at 1.
  pose proof (recv_run 1000 dl2p_6227_request_callback (o_stack_rmsg o)
                _ o s1 _ Hrecv Hlen Hok (request_callback_run _ _ _ _))
    as Hrun.
  rewrite Hrun. cbn [fst snd]. unfold ret.
  destruct (o_dupmsg_ok o); reflexivity.
Qed.

(** KeepAlive: the idle probe is a transaction followed by the release of
    the reply, if any; it leaves the connection alone and releases no
    session state. *)
Lemma timeout_footprint : only_emits is_request_event dl2p_6227_timeout.
Proof.
  unfold dl2p_6227_timeout, diag_freemsg.
  apply only_emits_bind; [apply request_footprint|intro r].
  footprint.
Qed.

(** The idle probe that goes unanswered meets the same stale pointer: the
    timed receive fails, the transaction hands back what its local [rmsg]
    held, and [dl2p_6227_timeout] passes it to [diag_freemsg]. *)
Lemma keepalive_unanswered (o : oracle) (s : state) (dp : diag_l2_kwp6227)
    (a : Z) :
  diag_l2_proto_data (conn s) = Some dp ->
  0 <= o_l1_send o ->
  o_l1_recv o < 0 ->
  o_stack_rmsg o = Wild a ->
  dl2p_6227_timeout o s
  = Fault (InvalidFree a)
          (append_trace s
             [EvMillisleep (diag_l2_p3min (conn s));
              EvL1Send [0x82; u8 (dstaddr dp); u8 (srcaddr dp); 0xa1]
                       (diag_l2_p4min (conn s));
              EvL1Recv 18 1100;
              EvFreeMsg (Wild a)]).
Proof.
  intros Hdp Hsend Hrecv Hstale.
  pose proof (send_run (control_msg 0xa1) dp o s ltac:(cbn; lia)
                eq_refl Hdp) as Hrun.
  pose proof (request_recv_failure _ _ _ _ _ Hrun Hsend Hrecv) as Hreq.
  unfold dl2p_6227_timeout, bind at 1. rewrite Hreq, Hstale.
  cbn [fst is_null negb].
  unfold diag_freemsg, bind, emit, raise, append_trace. cbn [conn trace].
  repeat rewrite <- app_assoc. reflexivity.
Qed.

End Request.

Section RequestExamples.
#[local] Existing Instance freediag_headers.

(** C5.  The timed receive fails (the ECU does not answer, the transport
    reports a timeout) while the stack slot of [rmsg] holds a stale address:
    [dl2p_6227_request] sets the error code to the timeout, as the contract
    says, and returns the stale address where the contract says null. *)
Theorem request_recv_failure_returns_stale_pointer :
  dl2p_6227_request sample_request lost_reply_oracle
                    (sample_state (Some sample_session))
  = Ret (Wild 0xDEADBEEF, DIAG_ERR_TIMEOUT)
        (append_trace (sample_state (Some sample_session))
           [EvMillisleep 5; EvL1Send [0x84; 0x10; 0x55; 1; 2; 3] 0;
            EvL1Recv 18 1100])
  /\ is_null (Wild 0xDEADBEEF) = false.
Proof. split; reflexivity. Qed.

End RequestExamples.

(** ** SessionTeardown *)

Lemma releases_stop_wait (rx : msgptr) (err : Z) :
  releases (stop_wait rx err) = 0%nat.
Proof. unfold stop_wait. now destruct (is_null rx || negb (err =? 0)). Qed.

Lemma releases_stop_release_reply (rx : msgptr) :
  releases (stop_release_reply rx) = 0%nat.
Proof. unfold stop_release_reply. now destruct (is_null rx). Qed.

Lemma releases_request_events (t : list event) :
  forallb is_request_event t = true -> releases t = 0%nat.
Proof.
  apply releases_none. intros e He. now destruct e.
Qed.

Section Stop.
Context {hdr : DiagHeaders}.

(** After a request that handed back null or a message of its own,
    [dl2p_6227_stopcomms] runs to its [return 0]. *)
Lemma stopcomms_finish_run (rx : msgptr) (err : Z) (o : oracle) (s : state) :
  is_wild rx = false ->
  exists s',
    stopcomms_finish rx err o s = Ret 0 s'
    /\ diag_l2_proto_data (conn s') = None
    /\ trace s' = trace s ++ stop_wait rx err ++ stop_release_reply rx
                  ++ stop_release_state (diag_l2_proto_data (conn s)).
Proof.
  intros Hrx.
  unfold stopcomms_finish, stop_wait, stop_release_reply, stop_release_state,
    fprintf_stderr, diag_os_millisleep, diag_freemsg, free.
  destruct rx as [|m|a]; [| |discriminate Hrx];
    cbn [is_null negb orb];
    destruct (negb (err =? 0));
    unfold bind, emit, get_conn, modify_conn, ret; cbn [conn trace];
    destruct (diag_l2_proto_data (conn s)) eqn:Hdp;
    eexists; (split; [reflexivity|]); cbn [conn trace set_proto_data];
    (split; [first [reflexivity | exact Hdp]|]);
    repeat rewrite <- app_assoc; cbn [app]; now rewrite ?app_nil_r.
Qed.

(** After a request that handed back a stale pointer (and an error, since
    only a failed receive does that), [dl2p_6227_stopcomms] warns, waits,
    and passes the pointer to [diag_freemsg]; it does not get to the release
    of the session state. *)
Lemma stopcomms_finish_stale (a err : Z) (o : oracle) (s : state) :
  stopcomms_finish (Wild a) err o s
  = Fault (InvalidFree a)
          (append_trace s (stop_wait (Wild a) err ++ [EvFreeMsg (Wild a)])).
Proof.
  unfold stopcomms_finish, stop_wait, fprintf_stderr, diag_os_millisleep,
    diag_freemsg.
  cbn [is_null negb orb].
  destruct (negb (err =? 0));
    unfold bind, emit, raise, ret, append_trace; cbn [conn trace];
    repeat rewrite <- app_assoc; reflexivity.
Qed.

(** Whenever the stop transaction hands back null or a message of its own,
    [dl2p_6227_stopcomms] returns 0 and leaves the connection without
    session state; with no reply or an error, what it does in between is
    the warning and the one wait of 5000 ms. *)
Lemma stopcomms_completes (o : oracle) (s s1 : state) (rx : msgptr)
    (err : Z) :
  dl2p_6227_request (control_msg 0xa0) o s = Ret (rx, err) s1 ->
  is_wild rx = false ->
  exists s2,
    dl2p_6227_stopcomms o s = Ret 0 s2
    /\ diag_l2_proto_data (conn s2) = None
    /\ trace s2 = trace s1 ++ stop_wait rx err ++ stop_release_reply rx
                  ++ stop_release_state (diag_l2_proto_data (conn s1)).
Proof.
  intros Hreq Hrx.
  destruct (stopcomms_finish_run rx err o s1 Hrx)
    as (s2 & Hrun & Hnone & Htr).
  exists s2. split; [|split; [exact Hnone|exact Htr]].
  unfold dl2p_6227_stopcomms, bind. rewrite Hreq. exact Hrun.
Qed.

(** With a live session the stop transaction comes back whenever the
    transport reports an error, on the send or on the receive: the case of
    the ECU that does not answer. *)
Lemma stop_transaction_without_reply (o : oracle) (s : state)
    (dp : diag_l2_kwp6227) :
  diag_l2_proto_data (conn s) = Some dp ->
  o_l1_send o < 0 \/ o_l1_recv o < 0 ->
  exists rx err s1,
    dl2p_6227_request (control_msg 0xa0) o s = Ret (rx, err) s1 /\ err <> 0.
Proof.
  intros Hdp Herr.
  pose proof (send_run (control_msg 0xa0) dp o s ltac:(cbn; lia)
                eq_refl Hdp) as Hsend.
  destruct (Z.ltb_spec (o_l1_send o) 0) as [Hneg|Hpos].
  - destruct (request_send_failure _ _ _ _ _ Hsend Hneg) as [Hreq _].
    do 3 eexists. split; [exact Hreq|lia].
  - destruct Herr as [Hs|Hr]; [lia|].
    pose proof (request_recv_failure _ _ _ _ _ Hsend Hpos Hr) as Hreq.
    do 3 eexists. split; [exact Hreq|lia].
Qed.

(** The unanswered stop: the frame goes out, the timed receive fails, and
    the local [rmsg] of the transaction held a stale address.  The warning
    and the 5000 ms wait take place, then the stale address goes to
    [diag_freemsg]: [dl2p_6227_stopcomms] does not return, and the session
    state is neither released nor is the connection's reference cleared. *)
Lemma stopcomms_unanswered (o : oracle) (s : state) (dp : diag_l2_kwp6227)
    (a : Z) :
  diag_l2_proto_data (conn s) = Some dp ->
  0 <= o_l1_send o ->
  o_l1_recv o < 0 ->
  o_stack_rmsg o = Wild a ->
  dl2p_6227_stopcomms o s
  = Fault (InvalidFree a)
          (append_trace s
             [EvMillisleep (diag_l2_p3min (conn s));
              EvL1Send [0x82; u8 (dstaddr dp); u8 (srcaddr dp); 0xa0]
                       (diag_l2_p4min (conn s));
              EvL1Recv 18 1100;
              EvStderr StopRequestFailed; EvMillisleep 5000;
              EvFreeMsg (Wild a)]).
Proof.
  intros Hdp Hsend Hrecv Hstale.
  pose proof (send_run (control_msg 0xa0) dp o s ltac:(cbn; lia)
                eq_refl Hdp) as Hrun.
  pose proof (request_recv_failure _ _ _ _ _ Hrun Hsend Hrecv) as Hreq.
  unfold dl2p_6227_stopcomms, bind. rewrite Hreq, Hstale.
  cbn [fst snd]. rewrite stopcomms_finish_stale.
  unfold stop_wait. cbn [is_null orb].
  replace (o_l1_recv o =? 0) with false by (symmetry; apply Z.eqb_neq; lia).
  unfold append_trace. cbn [negb conn trace].
  repeat rewrite <- app_assoc. reflexivity.
Qed.

(** X26.  Without a session there is nothing [dl2p_6227_send] could read
    the default addresses from: the request of [dl2p_6227_stopcomms] goes
    through the null session pointer before anything is sent, printed or
    released. *)
Lemma stopcomms_without_session (o : oracle) (s : state) :
  diag_l2_proto_data (conn s) = None ->
  dl2p_6227_stopcomms o s = Fault NullDeref s.
Proof.
  intros Hdp.
  unfold dl2p_6227_stopcomms, dl2p_6227_request, diag_l2_send,
    dl2p_6227_send.
  unfold bind, ask, get_conn. cbn. now rewrite Hdp.
Qed.

End Stop.

Section StopExamples.
#[local] Existing Instance freediag_headers.

(** C7.  The ECU does not answer the stop request: the timed receive
    reports a timeout, and the transaction hands back the stale content of
    its local [rmsg].  [dl2p_6227_stopcomms] warns and waits 5000 ms, as
    the contract says, and then passes the stale address to
    [diag_freemsg]: it does not get to its [return 0], and the connection
    still refers to the session state. *)
Theorem stopcomms_unanswered_frees_stale_pointer :
  dl2p_6227_stopcomms lost_reply_oracle (sample_state (Some sample_session))
  = Fault (InvalidFree 0xDEADBEEF)
          (append_trace (sample_state (Some sample_session))
             [EvMillisleep 5; EvL1Send [0x82; 0x10; 0x13; 0xa0] 0;
              EvL1Recv 18 1100;
              EvStderr StopRequestFailed; EvMillisleep 5000;
              EvFreeMsg (Wild 0xDEADBEEF)])
  /\ diag_l2_proto_data
       (conn (final_state
                (dl2p_6227_stopcomms lost_reply_oracle
                   (sample_state (Some sample_session)))))
     = Some sample_session
  /\ releases
       (trace (final_state
                 (dl2p_6227_stopcomms lost_reply_oracle
                    (sample_state (Some sample_session)))))
     = 0%nat.
Proof.
  assert (E : dl2p_6227_stopcomms lost_reply_oracle
                (sample_state (Some sample_session))
              = Fault (InvalidFree 0xDEADBEEF)
                  (append_trace (sample_state (Some sample_session))
                     [EvMillisleep 5; EvL1Send [0x82; 0x10; 0x13; 0xa0] 0;
                      EvL1Recv 18 1100;
                      EvStderr StopRequestFailed; EvMillisleep 5000;
                      EvFreeMsg (Wild 0xDEADBEEF)])).
  { apply (stopcomms_unanswered lost_reply_oracle
             (sample_state (Some sample_session)) sample_session 0xDEADBEEF);
      first [reflexivity | cbn; lia]. }
  split; [exact E|]. rewrite E. split; reflexivity.
Qed.

(** C8.  Two calls of [dl2p_6227_stopcomms] in a row.  The first, answered,
    releases the session state once, clears the connection's reference and
    returns 0.  The second asks [dl2p_6227_send] for the default addresses
    and goes through the null session pointer: it ends there, before
    anything is sent and without reaching the guarded release at its
    end. *)
Theorem stopcomms_second_call_faults :
  dl2p_6227_stopcomms reply_oracle (sample_state (Some sample_session))
  = Ret 0 after_first_stop
  /\ diag_l2_proto_data (conn after_first_stop) = None
  /\ releases (trace after_first_stop) = 1%nat
  /\ dl2p_6227_stopcomms reply_oracle after_first_stop
     = Fault NullDeref after_first_stop.
Proof.
  split; [reflexivity|].
  split; [reflexivity|].
  split; [reflexivity|].
  unfold dl2p_6227_stopcomms, dl2p_6227_request, diag_l2_send,
    dl2p_6227_send, bind, ask, get_conn.
  reflexivity.
Qed.

End StopExamples.

(** ** SessionHandshake *)

Section Start.
Context {hdr : DiagHeaders}.

(** C6.  On a transport that lacks the full-init capability or the
    checksum capability, [dl2p_6227_startcomms] prints its refusal and
    returns the not-supported error; it allocates nothing and leaves the
    connection as it was. *)
Theorem startcomms_requires_capabilities (flags bitrate target source : Z)
    (o : oracle) (s : state) :
  Z.land (l1flags (conn s)) DIAG_L1_DOESFULLINIT = 0
  \/ Z.land (l1flags (conn s)) DIAG_L1_DOESL2CKSUM = 0 ->
  dl2p_6227_startcomms flags bitrate target source o s
  = Ret DIAG_ERR_PROTO_NOTSUPP (append_trace s [EvStderr CantDoKwp6227])
  /\ filter is_calloc (trace (append_trace s [EvStderr CantDoKwp6227]))
     = filter is_calloc (trace s)
  /\ conn (append_trace s [EvStderr CantDoKwp6227]) = conn s.
Proof.
  intros Hcap. split; [|split].
  - unfold dl2p_6227_startcomms. unfold bind at 1, get_conn at 1.
    replace ((Z.land (l1flags (conn s)) DIAG_L1_DOESFULLINIT =? 0)
             || (Z.land (l1flags (conn s)) DIAG_L1_DOESL2CKSUM =? 0))
      with true; [reflexivity|].
    symmetry. apply orb_true_iff.
    destruct Hcap as [H|H]; [left|right]; now apply Z.eqb_eq.
  - cbn [append_trace trace]. rewrite filter_app. cbn. apply app_nil_r.
  - reflexivity.
Qed.

(** C4, as the driver has it.  Once the bus initialisation has succeeded,
    [dl2p_6227_startcomms] stores D3 B0 in the connection before it checks
    the key bytes: whatever pair the bus layer reported, the check passes,
    the call returns 0 and the session state stays allocated and referenced
    by the connection. *)
Theorem startcomms_assumes_keybytes (flags bitrate target source : Z)
    (o : oracle) (s : state) :
  Z.land (l1flags (conn s)) DIAG_L1_DOESFULLINIT <> 0 ->
  Z.land (l1flags (conn s)) DIAG_L1_DOESL2CKSUM <> 0 ->
  Z.land flags DIAG_L2_TYPE_INITMASK = DIAG_L2_TYPE_SLOWINIT ->
  o_calloc_ok o = true ->
  o_setspeed o = 0 ->
  0 <= o_initbus o ->
  exists s',
    dl2p_6227_startcomms flags bitrate target source o s = Ret 0 s'
    /\ diag_l2_proto_data (conn s') = Some (session_of target source)
    /\ diag_l2_kb1 (conn s') = 0xd3
    /\ diag_l2_kb2 (conn s') = 0xb0
    /\ diag_l2_speed (conn s') = start_bitrate bitrate
    /\ releases (trace s') = releases (trace s).
Proof.
  intros Hfull Hck Hmode Hcalloc Hspeed Hinit.
  unfold dl2p_6227_startcomms.
  unfold bind at 1, get_conn at 1.
  replace ((Z.land (l1flags (conn s)) DIAG_L1_DOESFULLINIT =? 0)
           || (Z.land (l1flags (conn s)) DIAG_L1_DOESL2CKSUM =? 0))
    with false
    by (symmetry; apply orb_false_iff; split; now apply Z.eqb_neq).
  replace (Z.land flags DIAG_L2_TYPE_INITMASK =? DIAG_L2_TYPE_SLOWINIT)
    with true by (symmetry; now apply Z.eqb_eq).
  cbn [negb].
  unfold diag_calloc, diag_l2_ioctl, fprintf_stderr, diag_os_millisleep.
  unfold bind, emit, ask, get_conn, modify_conn, ret.
  rewrite Hcalloc, Hspeed.
  destruct (source =? 0x13); cbn -[Z.land u8 with_parity Z.ltb];
    replace (o_initbus o <? 0) with false
      by (symmetry; apply Z.ltb_ge; lia);
    eexists; (split; [reflexivity|]); cbn [conn trace];
    repeat (split; [reflexivity|]);
    rewrite !releases_app; cbn; lia.
Qed.

(** When the speed set-up or the bus initialisation fails,
    [dl2p_6227_startcomms] releases the session state it allocated, clears
    the connection's reference and returns the error of the failed step. *)
Lemma startcomms_failure_releases (flags bitrate target source : Z)
    (o : oracle) (s : state) :
  Z.land (l1flags (conn s)) DIAG_L1_DOESFULLINIT <> 0 ->
  Z.land (l1flags (conn s)) DIAG_L1_DOESL2CKSUM <> 0 ->
  Z.land flags DIAG_L2_TYPE_INITMASK = DIAG_L2_TYPE_SLOWINIT ->
  o_calloc_ok o = true ->
  o_setspeed o <> 0 \/ o_initbus o < 0 ->
  exists s',
    dl2p_6227_startcomms flags bitrate target source o s
    = Ret (if o_setspeed o =? 0 then o_initbus o else o_setspeed o) s'
    /\ diag_l2_proto_data (conn s') = None
    /\ releases (trace s') = S (releases (trace s)).
Proof.
  intros Hfull Hck Hmode Hcalloc Hfail.
  unfold dl2p_6227_startcomms.
  unfold bind at 1, get_conn at 1.
  replace ((Z.land (l1flags (conn s)) DIAG_L1_DOESFULLINIT =? 0)
           || (Z.land (l1flags (conn s)) DIAG_L1_DOESL2CKSUM =? 0))
    with false
    by (symmetry; apply orb_false_iff; split; now apply Z.eqb_neq).
  replace (Z.land flags DIAG_L2_TYPE_INITMASK =? DIAG_L2_TYPE_SLOWINIT)
    with true by (symmetry; now apply Z.eqb_eq).
  cbn [negb].
  unfold diag_calloc, diag_l2_ioctl, startcomms_err, fprintf_stderr,
    diag_os_millisleep, free, diag_iseterr.
  unfold bind, emit, ask, get_conn, modify_conn, ret.
  rewrite Hcalloc.
  destruct (o_setspeed o =? 0) eqn:Hs.
  - assert (Hi : o_initbus o < 0)
      by (destruct Hfail as [H|H]; [apply Z.eqb_eq in Hs; lia|exact H]).
    destruct (source =? 0x13); cbn -[Z.land u8 with_parity Z.ltb];
      replace (o_initbus o <? 0) with true
        by (symmetry; apply Z.ltb_lt; lia);
      eexists; (split; [reflexivity|]); cbn [conn trace set_proto_data];
      (split; [reflexivity|]); rewrite !releases_app; cbn; lia.
  - destruct (source =? 0x13); cbn -[Z.land u8 with_parity];
      eexists; (split; [reflexivity|]); cbn [conn trace set_proto_data];
      (split; [reflexivity|]); rewrite !releases_app; cbn; lia.
Qed.

End Start.

Section StartExamples.
#[local] Existing Instance freediag_headers.

Lemma startcomms_requires_capabilities_witness :
  dl2p_6227_startcomms 0 0 0x10 0x13 quiet_oracle no_checksum_state
  = Ret (-5) (append_trace no_checksum_state [EvStderr CantDoKwp6227]).
Proof.
  exact (proj1 (startcomms_requires_capabilities 0 0 0x10 0x13 quiet_oracle
                  no_checksum_state (or_intror eq_refl))).
Defined.

(** C4, as the specification states it, fails: the bus layer reports the
    key bytes 08 08, and start-session succeeds with the session state in
    place. *)
Lemma startcomms_wrong_keybytes_counterexample :
  ~ rejects_wrong_keybytes 0 0 0x10 0x13 other_keybytes_oracle
      (sample_state None).
Proof.
  intros H. destruct H as (s' & Hrun & _).
  - cbn. lia.
  - discriminate.
  - vm_compute in Hrun. discriminate Hrun.
Qed.

Lemma startcomms_assumes_keybytes_witness :
  exists s',
    dl2p_6227_startcomms 0 0 0x10 0x13 other_keybytes_oracle
                         (sample_state None) = Ret 0 s'
    /\ diag_l2_proto_data (conn s') = Some sample_session
    /\ diag_l2_kb1 (conn s') = 0xd3
    /\ diag_l2_kb2 (conn s') = 0xb0
    /\ diag_l2_speed (conn s') = 10400
    /\ releases (trace s') = 0%nat.
Proof.
  apply (startcomms_assumes_keybytes 0 0 0x10 0x13 other_keybytes_oracle
           (sample_state None)); cbn; first [reflexivity | lia | discriminate].
Defined.

(** The scenario of the specification: slow-init flags, bit rate 0, target
    0x10, tester 0x13, a transport with both capabilities. *)
Example startcomms_scenario :
  exists s',
    dl2p_6227_startcomms 0 0 0x10 0x13 reply_oracle (sample_state None)
    = Ret 0 s'
    /\ diag_l2_speed (conn s') = 10400
    /\ diag_l2_proto_data (conn s') = Some sample_session
    /\ trace s'
       = [EvCalloc;
          EvIoctl (DIAG_IOCTL_SETSPEED
                     {| speed := 10400; databits := diag_databits_8;
                        stopbits := diag_stopbits_1; parflag := diag_par_n |});
          EvIoctl DIAG_IOCTL_IFLUSH;
          EvMillisleep 300;
          EvIoctl (DIAG_IOCTL_INITBUS 2 0x10)].
Proof.
  eexists. split; [vm_compute; reflexivity|]. repeat split.
Qed.

End StartExamples.

(** * Further properties of the driver *)

(** ** ParityEncoder: the parity it produces *)

(** X1.  The byte [with_parity] returns has an odd number of one bits in
    odd mode and an even number otherwise. *)
Theorem with_parity_total_parity (c : Z) :
  0 <= c < 256 ->
  Nat.odd (popcount8 (with_parity c diag_par_o)) = true
  /\ Nat.even (popcount8 (with_parity c diag_par_e)) = true
  /\ Nat.even (popcount8 (with_parity c diag_par_n)) = true.
Proof.
  intros Hc.
  assert (H : with_parity_total_ok c = true)
    by (apply forall_byte; [vm_compute; reflexivity|exact Hc]).
  unfold with_parity_total_ok in H.
  apply andb_prop in H as [H H3]. apply andb_prop in H as [H1 H2].
  repeat split; assumption.
Qed.

Lemma with_parity_total_parity_witness :
  popcount8 (with_parity 0x10 diag_par_o) = 1%nat
  /\ popcount8 (with_parity 0x33 diag_par_o) = 5%nat
  /\ Nat.odd (popcount8 (with_parity 0x33 diag_par_o)) = true.
Proof.
  split; [reflexivity|]. split; [reflexivity|].
  apply (with_parity_total_parity 0x33). lia.
Defined.

(** X2.  [with_parity] does not look at the top bit of its input: a byte
    that already carries a parity bit, of either mode, or that differs in
    the top bit, encodes to the same result. *)
Theorem with_parity_ignores_top_bit (c : Z) (eo eo' : diag_parity) :
  0 <= c < 256 ->
  with_parity (with_parity c eo') eo = with_parity c eo
  /\ with_parity (Z.lxor c 0x80) eo = with_parity c eo.
Proof.
  intros Hc.
  assert (H : with_parity_reencode_ok eo eo' c = true)
    by (apply forall_byte; [destruct eo, eo'; vm_compute; reflexivity
                           |exact Hc]).
  unfold with_parity_reencode_ok in H.
  apply andb_prop in H as [H1 H2].
  split; now apply Z.eqb_eq.
Qed.

Lemma with_parity_ignores_top_bit_witness :
  with_parity (with_parity 0x33 diag_par_e) diag_par_o = 0xB3
  /\ with_parity 0xB3 diag_par_o = with_parity 0x33 diag_par_o.
Proof.
  split; [reflexivity|].
  apply (with_parity_ignores_top_bit 0x33 diag_par_o diag_par_e). lia.
Defined.

(** ** FrameCodec: what the frame looks like *)

Lemma header_props (L : Z) :
  1 <= L <= 14 ->
  0x82 <= u8 (u32 (0x80 + L + 1)) <= 0x8F
  /\ Z.testbit (u8 (u32 (0x80 + L + 1))) 7 = true
  /\ Z.land (u8 (u32 (0x80 + L + 1))) 0x7f = L + 1.
Proof.
  intros H.
  assert (HL : In L [1;2;3;4;5;6;7;8;9;10;11;12;13;14]) by (cbn [In]; lia).
  cbn [In] in HL.
  repeat (destruct HL as [<-|HL]; [vm_compute; intuition discriminate|]).
  contradiction.
Qed.

Section SendMore.
Context {hdr : DiagHeaders}.

(** X3.  The frame of a message of 1..14 payload bytes describes itself:
    its first byte lies in 0x82..0x8F, has the top bit set, and its low
    seven bits count the bytes that follow the two addresses, checksum
    included; the frame is at most 17 bytes long, so that frame and checksum
    fit the 18-byte buffers of the driver, and its two address bytes are
    bytes whatever the address fields held. *)
Theorem send_frame_describes_itself (msg : diag_msg) (dp : diag_l2_kwp6227)
    (o : oracle) (s : state) :
  1 <= len msg <= 14 ->
  Z.of_nat (length (data msg)) = len msg ->
  diag_l2_proto_data (conn s) = Some dp ->
  exists h rest,
    wire_frame msg dp = h :: rest
    /\ trace (final_state (dl2p_6227_send msg o s))
       = trace s ++ [EvMillisleep (diag_l2_p3min (conn s));
                     EvL1Send (h :: rest) (diag_l2_p4min (conn s))]
    /\ 0x82 <= h <= 0x8F
    /\ Z.testbit h 7 = true
    /\ Z.of_nat (length (h :: rest)) = Z.land h 0x7f + 2
    /\ Z.of_nat (length (h :: rest)) + 1 <= BUFSIZE
    /\ 0 <= nth 0 rest 0 < 256
    /\ 0 <= nth 1 rest 0 < 256.
Proof.
  intros HL Hdata Hdp.
  destruct (header_props (len msg) HL) as (Hrange & Hbit & Hland).
  exists (u8 (u32 (0x80 + len msg + 1))),
         (u8 (frame_dest msg dp) :: u8 (frame_src msg dp) :: data msg).
  split; [reflexivity|]. split.
  { rewrite (send_run msg dp o s HL Hdata Hdp). cbn [final_state trace].
    now rewrite <- app_assoc. }
  split; [exact Hrange|]. split; [exact Hbit|].
  cbn [length nth]. rewrite Hland. unfold BUFSIZE.
  pose proof (u8_range (frame_dest msg dp)).
  pose proof (u8_range (frame_src msg dp)).
  repeat split; lia.
Qed.

(** X4.  [dl2p_6227_send] reads the session state only for an address the
    message leaves at zero.  On a connection without session state a
    message that names both addresses is framed and sent with them; a
    message with a zero address field makes the driver go through the null
    session pointer, before anything reaches the transport. *)
Theorem send_without_session (msg : diag_msg) (o : oracle) (s : state) :
  1 <= len msg <= 14 ->
  Z.of_nat (length (data msg)) = len msg ->
  diag_l2_proto_data (conn s) = None ->
  dl2p_6227_send msg o s
  = if negb (dest msg =? 0) && negb (src msg =? 0)
    then Ret (o_l1_send o)
           (append_trace s
              [EvMillisleep (diag_l2_p3min (conn s));
               EvL1Send (u8 (u32 (0x80 + len msg + 1))
                         :: u8 (dest msg) :: u8 (src msg) :: data msg)
                        (diag_l2_p4min (conn s))])
    else Fault NullDeref s.
Proof.
  intros HL Hdata Hdp.
  unfold dl2p_6227_send.
  unfold bind at 1. unfold ask at 1.
  unfold bind at 1. unfold get_conn at 1.
  replace ((len msg <? 1) || (len msg >? 14)) with false
    by (symmetry; apply orb_false_iff; split; lia).
  rewrite Hdp.
  destruct (dest msg =? 0); cbn [negb andb];
    [unfold bind, deref, raise; reflexivity|].
  unfold bind at 1. unfold ret at 1.
  destruct (src msg =? 0); cbn [negb];
    [unfold bind, deref, raise; reflexivity|].
  unfold bind at 1. unfold ret at 1.
  destruct (frame_in_buf (stack_buf o) (data msg)
              (u8 (u32 (0x80 + len msg + 1)))
              (u8 (dest msg)) (u8 (src msg)) o s
              (stack_buf_length o) ltac:(lia)) as [rest Hcpy].
  rewrite Hdata in Hcpy.
  unfold bind at 1. rewrite Hcpy.
  unfold diag_os_millisleep, diag_l1_send, bind, emit, ask, ret.
  cbn [conn trace].
  rewrite <- Hdata, firstn_frame.
  unfold append_trace. rewrite <- app_assoc. cbn [app].
  destruct (o_l1_send o =? 0) eqn:E; cbn [negb]; unfold diag_iseterr.
  - apply Z.eqb_eq in E. now rewrite E.
  - reflexivity.
Qed.

End SendMore.

Section SendMoreExamples.
#[local] Existing Instance freediag_headers.

Lemma send_frame_describes_itself_witness :
  exists h rest,
    wire_frame sample_request sample_session = h :: rest
    /\ trace (final_state
                (dl2p_6227_send sample_request quiet_oracle
                   (sample_state (Some sample_session))))
       = trace (sample_state (Some sample_session))
         ++ [EvMillisleep 5; EvL1Send (h :: rest) 0]
    /\ 0x82 <= h <= 0x8F
    /\ Z.testbit h 7 = true
    /\ Z.of_nat (length (h :: rest)) = Z.land h 0x7f + 2
    /\ Z.of_nat (length (h :: rest)) + 1 <= BUFSIZE
    /\ 0 <= nth 0 rest 0 < 256
    /\ 0 <= nth 1 rest 0 < 256.
Proof.
  apply (send_frame_describes_itself sample_request sample_session
           quiet_oracle (sample_state (Some sample_session)));
    cbn; first [reflexivity | lia].
Defined.

Lemma send_without_session_witness :
  dl2p_6227_send addressed_request quiet_oracle (sample_state None)
  = Ret 0 (append_trace (sample_state None)
             [EvMillisleep 5; EvL1Send [0x83; 0x7A; 0x55; 0xB9; 0xF0] 0])
  /\ dl2p_6227_send default_request quiet_oracle (sample_state None)
     = Fault NullDeref (sample_state None).
Proof.
  split.
  - apply (send_without_session addressed_request quiet_oracle
             (sample_state None)); cbn; first [reflexivity | lia].
  - reflexivity.
Defined.

End SendMoreExamples.

(** ** FrameCodec: the receive side *)

Section RecvMore.
Context {hdr : DiagHeaders}.

(** X5.  When the timed raw read fails, [dl2p_6227_recv] returns the
    transport's error code as it is; nothing is allocated, the callback is
    not called and what its handle points to is untouched. *)
Theorem recv_transport_error {T : Type} (timeout : Z)
    (callback : option (T -> diag_msg -> M T)) (h : T) (o : oracle)
    (s : state) :
  o_l1_recv o < 0 ->
  dl2p_6227_recv timeout callback h o s
  = Ret (o_l1_recv o, h)
        (append_trace s [EvL1Recv BUFSIZE (u32 (timeout + 100))]).
Proof.
  intros Hrv. unfold dl2p_6227_recv.
  unfold bind at 1, ask at 1. unfold bind at 1.
  rewrite diag_l1_recv_run. cbn [fst snd].
  now replace (o_l1_recv o <? 0) with true by (symmetry; apply Z.ltb_lt; lia).
Qed.

(** X6.  When the raw read succeeds and no message can be allocated,
    [dl2p_6227_recv] returns the allocation error; the callback is not
    called, its handle is untouched and nothing is released. *)
Theorem recv_alloc_failure {T : Type} (timeout : Z)
    (callback : option (T -> diag_msg -> M T)) (h : T) (o : oracle)
    (s : state) :
  0 <= o_l1_recv o ->
  o_allocmsg_ok o = false ->
  dl2p_6227_recv timeout callback h o s
  = Ret (DIAG_ERR_NOMEM, h)
        (append_trace s
           [EvL1Recv BUFSIZE (u32 (timeout + 100));
            EvAllocMsg (to_size_t size_t_bits (o_l1_recv o - 4))]).
Proof.
  intros Hrv Hok. unfold dl2p_6227_recv.
  unfold bind at 1, ask at 1. unfold bind at 1.
  rewrite diag_l1_recv_run. cbn [fst snd].
  replace (o_l1_recv o <? 0) with false by (symmetry; apply Z.ltb_ge; lia).
  unfold bind at 1. rewrite diag_allocmsg_run, Hok.
  unfold ret, diag_iseterr, append_trace. cbn [conn trace].
  now rewrite <- app_assoc.
Qed.

(** The message decoded from a frame laid out as header, destination,
    source, payload, checksum. *)
Lemma decoded_of_frame (o : oracle) (h0 d sr ck : Z) (payload : list Z) :
  o_l1_recv_bytes o = h0 :: d :: sr :: payload ++ [ck] ->
  o_l1_recv o = Z.of_nat (length payload) + 4 ->
  decoded_msg o = payload_msg d sr payload (o_chronoms o).
Proof.
  intros Hb Hrv. unfold decoded_msg, payload_msg. rewrite Hb, Hrv.
  cbn [nth skipn].
  replace (Z.of_nat (length payload) + 4 - 4) with (Z.of_nat (length payload))
    by lia.
  rewrite Nat2Z.id, firstn_app, firstn_all, Nat.sub_diag.
  cbn [firstn]. now rewrite app_nil_r.
Qed.

(** X7.  [dl2p_6227_recv] strips the framing without looking at it: of a
    raw read laid out as header, destination, source, payload, checksum it
    delivers the payload and the two addresses, whatever the header byte
    and the checksum byte are. *)
Theorem recv_strips_framing {T : Type} (timeout : Z)
    (cb : T -> diag_msg -> M T) (h h' : T) (o : oracle) (s s' : state)
    (h0 d sr ck : Z) (payload : list Z) :
  o_l1_recv_bytes o = h0 :: d :: sr :: payload ++ [ck] ->
  o_l1_recv o = Z.of_nat (length payload) + 4 ->
  (length payload <= 14)%nat ->
  o_allocmsg_ok o = true ->
  cb h (payload_msg d sr payload (o_chronoms o)) o
     (append_trace s
        (delivery_events timeout (payload_msg d sr payload (o_chronoms o))))
  = Ret h' s' ->
  dl2p_6227_recv timeout (Some cb) h o s
  = Ret (0, h')
        (append_trace s'
           [EvFreeMsg (Msg (payload_msg d sr payload (o_chronoms o)))]).
Proof.
  intros Hb Hrv Hlen Hok Hcb.
  pose proof (decoded_of_frame o h0 d sr ck payload Hb Hrv) as Hdec.
  rewrite <- Hdec in *.
  apply recv_run with (timeout := timeout); try assumption.
  - lia.
  - rewrite Hb, Hrv. cbn [length]. rewrite length_app. cbn [length]. lia.
Qed.

(** X8.  Round trip: the frame [dl2p_6227_send] puts on the wire, followed
    by a checksum byte, is decoded by [dl2p_6227_recv] to the payload that
    was sent and to the two address bytes of the frame. *)
Theorem send_recv_round_trip {T : Type} (msg : diag_msg)
    (dp : diag_l2_kwp6227) (o o2 : oracle) (s s1 s2 : state) (rv ck : Z)
    (timeout : Z) (cb : T -> diag_msg -> M T) (h h' : T) :
  1 <= len msg <= 14 ->
  Z.of_nat (length (data msg)) = len msg ->
  diag_l2_proto_data (conn s) = Some dp ->
  dl2p_6227_send msg o s = Ret rv s1 ->
  o_allocmsg_ok o2 = true ->
  cb h (payload_msg (u8 (frame_dest msg dp)) (u8 (frame_src msg dp))
                    (data msg) (o_chronoms o2))
     (with_recv (len msg + 4) (wire_frame msg dp ++ [ck]) o2)
     (append_trace s1
        (delivery_events timeout
           (payload_msg (u8 (frame_dest msg dp)) (u8 (frame_src msg dp))
                        (data msg) (o_chronoms o2))))
  = Ret h' s2 ->
  trace s1 = trace s ++ [EvMillisleep (diag_l2_p3min (conn s));
                         EvL1Send (wire_frame msg dp)
                                  (diag_l2_p4min (conn s))]
  /\ dl2p_6227_recv timeout (Some cb) h
       (with_recv (len msg + 4) (wire_frame msg dp ++ [ck]) o2) s1
     = Ret (0, h')
           (append_trace s2
              [EvFreeMsg
                 (Msg (payload_msg (u8 (frame_dest msg dp))
                                   (u8 (frame_src msg dp))
                                   (data msg) (o_chronoms o2)))]).
Proof.
  intros HL Hdata Hdp Hsend Hok Hcb. split.
  - rewrite (send_run msg dp o s HL Hdata Hdp) in Hsend.
    injection Hsend as _ <-. cbn [trace]. now rewrite <- app_assoc.
  - assert (Hbytes : o_l1_recv_bytes
                       (with_recv (len msg + 4) (wire_frame msg dp ++ [ck]) o2)
                     = u8 (u32 (0x80 + len msg + 1))
                       :: u8 (frame_dest msg dp) :: u8 (frame_src msg dp)
                       :: data msg ++ [ck]) by reflexivity.
    assert (Hrv : o_l1_recv
                    (with_recv (len msg + 4) (wire_frame msg dp ++ [ck]) o2)
                  = Z.of_nat (length (data msg)) + 4)
      by (cbn [with_recv o_l1_recv]; lia).
    pose proof (decoded_of_frame _ _ _ _ _ _ Hbytes Hrv) as Hdec.
    cbn [with_recv o_chronoms] in Hdec. rewrite <- Hdec in *.
    apply recv_run with (timeout := timeout); try assumption.
    + cbn [with_recv o_l1_recv]. lia.
    + rewrite Hbytes, Hrv. cbn [length]. rewrite length_app.
      cbn [length]. lia.
Qed.

(** What follows the raw read in [dl2p_6227_recv] only adds to the trace,
    as long as the callback does. *)
Lemma recv_first_event {T : Type} (timeout : Z)
    (callback : option (T -> diag_msg -> M T)) (h : T) (o : oracle)
    (s : state) :
  (forall cb h' m, callback = Some cb -> only_emits is_recv_event (cb h' m)) ->
  exists t,
    trace (final_state (dl2p_6227_recv timeout callback h o s))
    = trace s ++ EvL1Recv BUFSIZE (u32 (timeout + 100)) :: t.
Proof.
  intros Hcb. unfold dl2p_6227_recv.
  unfold bind at 1, ask at 1. unfold bind at 1.
  rewrite diag_l1_recv_run. cbn [fst snd].
  match goal with
  | |- context [final_state (?K o ?s1)] =>
      assert (HK : only_emits is_recv_event K)
  end.
  { unfold diag_allocmsg, diag_os_chronoms, diag_freemsg. footprint. }
  match goal with
  | |- context [final_state (?K o ?s1)] =>
      destruct (HK o s1) as (_ & t & Ht & _)
  end.
  exists t. rewrite Ht. cbn [append_trace trace].
  now rewrite <- app_assoc.
Qed.

(** X9.  The padding of the receive timeout is added in [unsigned int]: a
    timeout within 100 ms of the largest value wraps, and the transport is
    asked to wait less than the 100 ms of the padding. *)
Theorem recv_padded_timeout_wraps {T : Type} (timeout : Z)
    (callback : option (T -> diag_msg -> M T)) (h : T) (o : oracle)
    (s : state) :
  (forall cb h' m, callback = Some cb -> only_emits is_recv_event (cb h' m)) ->
  2 ^ 32 - 100 <= timeout < 2 ^ 32 ->
  exists t,
    trace (final_state (dl2p_6227_recv timeout callback h o s))
    = trace s ++ EvL1Recv BUFSIZE (timeout - (2 ^ 32 - 100)) :: t
    /\ 0 <= timeout - (2 ^ 32 - 100) < 100.
Proof.
  intros Hcb Ht.
  destruct (recv_first_event timeout callback h o s Hcb) as [t Htr].
  exists t. split; [|lia]. rewrite Htr.
  replace (u32 (timeout + 100)) with (timeout - (2 ^ 32 - 100)); [reflexivity|].
  unfold u32. apply Z.mod_unique with (q := 1); lia.
Qed.

End RecvMore.

Section RecvMoreExamples.
#[local] Existing Instance freediag_headers.

Lemma recv_transport_error_witness :
  dl2p_6227_recv 50 (Some counting_callback) 0%nat lost_reply_oracle
                 (sample_state (Some sample_session))
  = Ret (DIAG_ERR_TIMEOUT, 0%nat)
        (append_trace (sample_state (Some sample_session))
           [EvL1Recv 18 150]).
Proof.
  apply (recv_transport_error 50 (Some counting_callback) 0%nat
           lost_reply_oracle (sample_state (Some sample_session))).
  reflexivity.
Defined.

Lemma recv_alloc_failure_witness :
  dl2p_6227_recv 50 (Some counting_callback) 0%nat no_memory_oracle
                 (sample_state (Some sample_session))
  = Ret (-3, 0%nat)
        (append_trace (sample_state (Some sample_session))
           [EvL1Recv 18 150; EvAllocMsg 3]).
Proof.
  exact (recv_alloc_failure 50 (Some counting_callback) 0%nat
           no_memory_oracle (sample_state (Some sample_session))
           ltac:(cbn; lia) eq_refl).
Defined.

Lemma recv_strips_framing_witness :
  dl2p_6227_recv 50 (Some counting_callback) 0%nat reply_oracle
                 (sample_state (Some sample_session))
  = Ret (0, 1%nat)
        (append_trace
           (append_trace (sample_state (Some sample_session))
              (delivery_events 50
                 (payload_msg 0x13 0x10 [0xAA; 0xBB; 0xCC] 1234)))
           [EvFreeMsg (Msg (payload_msg 0x13 0x10 [0xAA; 0xBB; 0xCC] 1234))]).
Proof.
  apply (recv_strips_framing 50 counting_callback 0%nat 1%nat reply_oracle
           (sample_state (Some sample_session)) _ 0x84 0x13 0x10 0x99
           [0xAA; 0xBB; 0xCC]);
    first [reflexivity | cbn; lia].
Defined.

Lemma send_recv_round_trip_witness :
  dl2p_6227_recv 50 (Some counting_callback) 0%nat
    (with_recv 7 (wire_frame sample_request sample_session ++ [0x99])
               reply_oracle)
    (final_state (dl2p_6227_send sample_request quiet_oracle
                    (sample_state (Some sample_session))))
  = Ret (0, 1%nat)
        (append_trace
           (append_trace
              (final_state (dl2p_6227_send sample_request quiet_oracle
                              (sample_state (Some sample_session))))
              (delivery_events 50 (payload_msg 0x10 0x55 [1; 2; 3] 1234)))
           [EvFreeMsg (Msg (payload_msg 0x10 0x55 [1; 2; 3] 1234))]).
Proof.
  apply (send_recv_round_trip sample_request sample_session quiet_oracle
           reply_oracle (sample_state (Some sample_session)) _ _ 0 0x99 50
           counting_callback 0%nat 1%nat);
    first [reflexivity | cbn; lia].
Defined.

Lemma recv_padded_timeout_wraps_witness :
  exists t,
    trace (final_state
             (dl2p_6227_recv (2 ^ 32 - 1) (@None (nat -> diag_msg -> M nat))
                0%nat lost_reply_oracle (sample_state (Some sample_session))))
    = trace (sample_state (Some sample_session))
      ++ EvL1Recv BUFSIZE (2 ^ 32 - 1 - (2 ^ 32 - 100)) :: t
    /\ 0 <= 2 ^ 32 - 1 - (2 ^ 32 - 100) < 100.
Proof.
  apply (recv_padded_timeout_wraps (2 ^ 32 - 1) None 0%nat lost_reply_oracle
           (sample_state (Some sample_session))).
  - intros cb h' m [=].
  - lia.
Defined.

End RecvMoreExamples.

(** ** RequestResponse, KeepAlive and SessionTeardown: further runs *)

Lemma allocations_request_events (t : list event) :
  forallb is_request_event t = true -> allocations t = 0%nat.
Proof.
  intros Ht. unfold allocations. induction t as [|e t IH]; [reflexivity|].
  cbn [forallb] in Ht. apply andb_prop in Ht as [He Ht].
  cbn [filter]. destruct e; try discriminate He; cbn [is_calloc]; auto.
Qed.

Section RequestMore.
Context {hdr : DiagHeaders}.

(** A transaction on a live session whose frame the transport accepts and
    whose reply arrives. *)
Lemma request_reply_run (msg : diag_msg) (dp : diag_l2_kwp6227) (o : oracle)
    (s : state) :
  1 <= len msg <= 14 ->
  Z.of_nat (length (data msg)) = len msg ->
  diag_l2_proto_data (conn s) = Some dp ->
  0 <= o_l1_send o ->
  4 <= o_l1_recv o <= 18 ->
  Z.of_nat (length (o_l1_recv_bytes o)) = o_l1_recv o ->
  o_allocmsg_ok o = true ->
  dl2p_6227_request msg o s
  = Ret (if o_dupmsg_ok o then (Msg (decoded_msg o), 0)
         else (NULL, DIAG_ERR_NOMEM))
        (append_trace s
           ([EvMillisleep (diag_l2_p3min (conn s));
             EvL1Send (wire_frame msg dp) (diag_l2_p4min (conn s))]
            ++ recv_events 1000 o
            ++ [EvDupMsg (decoded_msg o); EvFreeMsg (Msg (decoded_msg o))])).
Proof.
  intros HL Hdata Hdp Hsend Hrv Hlen Hok.
  rewrite (request_reply msg o s _ _ (send_run msg dp o s HL Hdata Hdp)
             Hsend Hrv Hlen Hok).
  f_equal. unfold append_trace. cbn [conn trace]. f_equal.
  repeat rewrite <- app_assoc. reflexivity.
Qed.

(** X10.  When the transport refuses the frame of a well-formed message,
    the transaction ends there: it returns null and the error of the
    transport, and after the pacing delay and the send nothing else
    happens, no timed receive in particular. *)
Theorem transact_stops_after_failed_send (msg : diag_msg)
    (dp : diag_l2_kwp6227) (o : oracle) (s : state) :
  1 <= len msg <= 14 ->
  Z.of_nat (length (data msg)) = len msg ->
  diag_l2_proto_data (conn s) = Some dp ->
  o_l1_send o < 0 ->
  dl2p_6227_request msg o s
  = Ret (NULL, o_l1_send o)
        (append_trace s
           [EvMillisleep (diag_l2_p3min (conn s));
            EvL1Send (wire_frame msg dp) (diag_l2_p4min (conn s))]).
Proof.
  intros HL Hdata Hdp Hsend.
  pose proof (send_run msg dp o s HL Hdata Hdp) as Hrun.
  destruct (request_send_failure _ _ _ _ _ Hrun Hsend) as [Hreq _].
  rewrite Hreq. unfold append_trace. cbn [conn trace].
  now rewrite <- app_assoc.
Qed.

(** X11.  A transaction on a live session whose frame is accepted and
    answered returns the duplicate of the decoded reply with error code 0,
    or null with the allocation error when the duplication fails; it asks
    the transport to wait 1100 ms, releases the decoded message itself and
    leaves the connection as it was. *)
Theorem transact_returns_duplicate (msg : diag_msg) (dp : diag_l2_kwp6227)
    (o : oracle) (s : state) :
  1 <= len msg <= 14 ->
  Z.of_nat (length (data msg)) = len msg ->
  diag_l2_proto_data (conn s) = Some dp ->
  0 <= o_l1_send o ->
  4 <= o_l1_recv o <= 18 ->
  Z.of_nat (length (o_l1_recv_bytes o)) = o_l1_recv o ->
  o_allocmsg_ok o = true ->
  exists s',
    dl2p_6227_request msg o s
    = Ret (if o_dupmsg_ok o then (Msg (decoded_msg o), 0)
           else (NULL, DIAG_ERR_NOMEM)) s'
    /\ conn s' = conn s
    /\ trace s'
       = trace s
         ++ [EvMillisleep (diag_l2_p3min (conn s));
             EvL1Send (wire_frame msg dp) (diag_l2_p4min (conn s));
             EvL1Recv 18 1100; EvAllocMsg (o_l1_recv o - 4); EvChronoms;
             EvCallback (decoded_msg o); EvDupMsg (decoded_msg o);
             EvFreeMsg (Msg (decoded_msg o))].
Proof.
  intros HL Hdata Hdp Hsend Hrv Hlen Hok.
  eexists. split; [now apply (request_reply_run msg dp)|].
  split; reflexivity.
Qed.

(** X12.  However a transaction ends, it leaves the connection as it found
    it, and what it adds to the trace are sleeps, transport calls and
    message calls only: it neither allocates nor releases session state. *)
Theorem transact_keeps_connection (msg : diag_msg) (o : oracle) (s : state) :
  conn (final_state (dl2p_6227_request msg o s)) = conn s
  /\ exists t,
       trace (final_state (dl2p_6227_request msg o s)) = trace s ++ t
       /\ forallb is_request_event t = true
       /\ releases t = 0%nat
       /\ allocations t = 0%nat.
Proof.
  destruct (request_footprint msg o s) as (Hc & t & Ht & HP).
  split; [exact Hc|]. exists t. split; [exact Ht|]. split; [exact HP|].
  split; [now apply releases_request_events
         |now apply allocations_request_events].
Qed.

(** X23.  However the idle probe ends, [dl2p_6227_timeout] leaves the
    connection as it found it: it neither allocates nor releases session
    state, prints nothing, and calls only the transport, the clock and the
    message utilities. *)
Theorem keepalive_keeps_connection (o : oracle) (s : state) :
  conn (final_state (dl2p_6227_timeout o s)) = conn s
  /\ exists t,
       trace (final_state (dl2p_6227_timeout o s)) = trace s ++ t
       /\ forallb is_request_event t = true
       /\ releases t = 0%nat
       /\ allocations t = 0%nat.
Proof.
  destruct (timeout_footprint o s) as (Hc & t & Ht & HP).
  split; [exact Hc|]. exists t. split; [exact Ht|]. split; [exact HP|].
  split; [now apply releases_request_events
         |now apply allocations_request_events].
Qed.

(** X13.  The idle probe is the one-byte request A1 to the session's
    addresses; when the ECU answers, both the decoded reply and its
    duplicate are released, and the connection is as before. *)
Theorem keepalive_releases_reply (dp : diag_l2_kwp6227) (o : oracle)
    (s : state) :
  diag_l2_proto_data (conn s) = Some dp ->
  0 <= o_l1_send o ->
  4 <= o_l1_recv o <= 18 ->
  Z.of_nat (length (o_l1_recv_bytes o)) = o_l1_recv o ->
  o_allocmsg_ok o = true ->
  dl2p_6227_timeout o s
  = Ret tt
      (append_trace s
         ([EvMillisleep (diag_l2_p3min (conn s));
           EvL1Send [0x82; u8 (dstaddr dp); u8 (srcaddr dp); 0xa1]
                    (diag_l2_p4min (conn s))]
          ++ recv_events 1000 o
          ++ [EvDupMsg (decoded_msg o); EvFreeMsg (Msg (decoded_msg o))]
          ++ (if o_dupmsg_ok o then [EvFreeMsg (Msg (decoded_msg o))]
              else []))).
Proof.
  intros Hdp Hsend Hrv Hlen Hok.
  unfold dl2p_6227_timeout, bind.
  rewrite (request_reply_run (control_msg 0xa1) dp o s ltac:(cbn; lia)
             eq_refl Hdp Hsend Hrv Hlen Hok).
  unfold diag_freemsg, bind, emit, ret, append_trace.
  destruct (o_dupmsg_ok o); cbn [fst snd is_null negb conn trace];
    repeat rewrite <- app_assoc; cbn [app]; now rewrite ?app_nil_r.
Qed.

(** X14.  When the transport refuses the idle probe, [dl2p_6227_timeout]
    gives up at once: no receive, no wait, nothing released, the connection
    as before. *)
Theorem keepalive_gives_up_after_failed_send (dp : diag_l2_kwp6227)
    (o : oracle) (s : state) :
  diag_l2_proto_data (conn s) = Some dp ->
  o_l1_send o < 0 ->
  dl2p_6227_timeout o s
  = Ret tt
      (append_trace s
         [EvMillisleep (diag_l2_p3min (conn s));
          EvL1Send [0x82; u8 (dstaddr dp); u8 (srcaddr dp); 0xa1]
                   (diag_l2_p4min (conn s))]).
Proof.
  intros Hdp Hsend.
  pose proof (send_run (control_msg 0xa1) dp o s ltac:(cbn; lia)
                eq_refl Hdp) as Hrun.
  destruct (request_send_failure _ _ _ _ _ Hrun Hsend) as [Hreq _].
  unfold dl2p_6227_timeout, bind. rewrite Hreq.
  cbn [fst is_null negb]. unfold ret, append_trace. cbn [conn trace].
  now rewrite <- app_assoc.
Qed.

(** X15.  An acknowledged stop request does not wait: the reply and its
    duplicate are released, then the session state, and 0 is returned.  If
    the reply arrives but cannot be duplicated, the stop is handled like an
    unanswered one, warning and 5000 ms wait included. *)
Theorem stopcomms_acknowledged (dp : diag_l2_kwp6227) (o : oracle)
    (s : state) :
  diag_l2_proto_data (conn s) = Some dp ->
  0 <= o_l1_send o ->
  4 <= o_l1_recv o <= 18 ->
  Z.of_nat (length (o_l1_recv_bytes o)) = o_l1_recv o ->
  o_allocmsg_ok o = true ->
  exists s',
    dl2p_6227_stopcomms o s = Ret 0 s'
    /\ diag_l2_proto_data (conn s') = None
    /\ trace s'
       = trace s
         ++ [EvMillisleep (diag_l2_p3min (conn s));
             EvL1Send [0x82; u8 (dstaddr dp); u8 (srcaddr dp); 0xa0]
                      (diag_l2_p4min (conn s))]
         ++ recv_events 1000 o
         ++ [EvDupMsg (decoded_msg o); EvFreeMsg (Msg (decoded_msg o))]
         ++ (if o_dupmsg_ok o
             then [EvFreeMsg (Msg (decoded_msg o))]
             else [EvStderr StopRequestFailed; EvMillisleep 5000])
         ++ [EvFree dp].
Proof.
  intros Hdp Hsend Hrv Hlen Hok.
  pose proof (request_reply_run (control_msg 0xa0) dp o s ltac:(cbn; lia)
                eq_refl Hdp Hsend Hrv Hlen Hok) as Hreq.
  unfold dl2p_6227_stopcomms, bind. rewrite Hreq.
  match goal with
  | |- context [stopcomms_finish ?rx ?err o ?s1] =>
      destruct (stopcomms_finish_run rx err o s1)
        as (s2 & Hrun & Hnone & Htr); [now destruct (o_dupmsg_ok o)|]
  end.
  exists s2. split; [exact Hrun|]. split; [exact Hnone|].
  rewrite Htr. cbn [append_trace conn trace]. rewrite Hdp.
  unfold stop_wait, stop_release_reply, stop_release_state.
  assert (Herr : (DIAG_ERR_NOMEM =? 0) = false)
    by (apply Z.eqb_neq; pose proof DIAG_ERR_NOMEM_neg; lia).
  destruct (o_dupmsg_ok o); cbn [fst snd is_null orb negb Z.eqb];
    rewrite ?Herr; cbn [negb orb];
    repeat rewrite <- app_assoc; cbn [app]; reflexivity.
Qed.

End RequestMore.

Section RequestMoreExamples.
#[local] Existing Instance freediag_headers.

Lemma transact_stops_after_failed_send_witness :
  dl2p_6227_request sample_request send_error_oracle
                    (sample_state (Some sample_session))
  = Ret (NULL, -16)
        (append_trace (sample_state (Some sample_session))
           [EvMillisleep 5; EvL1Send [0x84; 0x10; 0x55; 1; 2; 3] 0]).
Proof.
  apply (transact_stops_after_failed_send sample_request sample_session
           send_error_oracle (sample_state (Some sample_session)));
    first [reflexivity | cbn; lia].
Defined.

(** The sixteen-byte message of the specification's scenario, through a
    transaction. *)
Lemma request_bad_length_witness :
  dl2p_6227_request oversized_request reply_oracle
                    (sample_state (Some sample_session))
  = Ret (NULL, -17) (sample_state (Some sample_session)).
Proof.
  assert (H : len oversized_request < 1 \/ len oversized_request > 14)
    by (right; reflexivity).
  exact (request_bad_length oversized_request reply_oracle
           (sample_state (Some sample_session)) H).
Defined.

Lemma recv_without_callback_witness :
  dl2p_6227_recv 50 (@None (nat -> diag_msg -> M nat)) 0%nat reply_oracle
                 (sample_state (Some sample_session))
  = Ret (0, 0%nat)
        (append_trace (sample_state (Some sample_session))
           [EvL1Recv 18 150; EvAllocMsg 3; EvChronoms;
            EvFreeMsg (Msg (decoded_msg reply_oracle))]).
Proof.
  apply (recv_without_callback 50 0%nat reply_oracle
           (sample_state (Some sample_session)));
    first [reflexivity | cbn; lia].
Defined.

Lemma stopcomms_without_session_witness :
  dl2p_6227_stopcomms reply_oracle after_first_stop
  = Fault NullDeref after_first_stop.
Proof.
  apply (stopcomms_without_session reply_oracle after_first_stop).
  reflexivity.
Defined.

Lemma transact_returns_duplicate_witness :
  exists s',
    dl2p_6227_request sample_request reply_oracle
                      (sample_state (Some sample_session))
    = Ret (Msg (decoded_msg reply_oracle), 0) s'
    /\ conn s' = conn (sample_state (Some sample_session))
    /\ trace s'
       = [EvMillisleep 5; EvL1Send [0x84; 0x10; 0x55; 1; 2; 3] 0;
          EvL1Recv 18 1100; EvAllocMsg 3; EvChronoms;
          EvCallback (decoded_msg reply_oracle);
          EvDupMsg (decoded_msg reply_oracle);
          EvFreeMsg (Msg (decoded_msg reply_oracle))].
Proof.
  apply (transact_returns_duplicate sample_request sample_session
           reply_oracle (sample_state (Some sample_session)));
    first [reflexivity | cbn; lia].
Defined.

Lemma keepalive_releases_reply_witness :
  dl2p_6227_timeout reply_oracle (sample_state (Some sample_session))
  = Ret tt
      (append_trace (sample_state (Some sample_session))
         [EvMillisleep 5; EvL1Send [0x82; 0x10; 0x13; 0xa1] 0;
          EvL1Recv 18 1100; EvAllocMsg 3; EvChronoms;
          EvCallback (decoded_msg reply_oracle);
          EvDupMsg (decoded_msg reply_oracle);
          EvFreeMsg (Msg (decoded_msg reply_oracle));
          EvFreeMsg (Msg (decoded_msg reply_oracle))]).
Proof.
  apply (keepalive_releases_reply sample_session reply_oracle
           (sample_state (Some sample_session)));
    first [reflexivity | cbn; lia].
Defined.

Lemma keepalive_gives_up_after_failed_send_witness :
  dl2p_6227_timeout send_error_oracle (sample_state (Some sample_session))
  = Ret tt
      (append_trace (sample_state (Some sample_session))
         [EvMillisleep 5; EvL1Send [0x82; 0x10; 0x13; 0xa1] 0]).
Proof.
  apply (keepalive_gives_up_after_failed_send sample_session
           send_error_oracle (sample_state (Some sample_session)));
    [reflexivity|cbn; lia].
Defined.

Lemma stopcomms_acknowledged_witness :
  exists s',
    dl2p_6227_stopcomms reply_oracle (sample_state (Some sample_session))
    = Ret 0 s'
    /\ diag_l2_proto_data (conn s') = None
    /\ trace s'
       = [EvMillisleep 5; EvL1Send [0x82; 0x10; 0x13; 0xa0] 0;
          EvL1Recv 18 1100; EvAllocMsg 3; EvChronoms;
          EvCallback (decoded_msg reply_oracle);
          EvDupMsg (decoded_msg reply_oracle);
          EvFreeMsg (Msg (decoded_msg reply_oracle));
          EvFreeMsg (Msg (decoded_msg reply_oracle));
          EvFree sample_session].
Proof.
  apply (stopcomms_acknowledged sample_session reply_oracle
           (sample_state (Some sample_session)));
    first [reflexivity | cbn; lia].
Defined.

End RequestMoreExamples.

(** ** SessionHandshake: every way through it *)

Lemma allocations_app (t1 t2 : list event) :
  allocations (t1 ++ t2) = (allocations t1 + allocations t2)%nat.
Proof. unfold allocations. now rewrite filter_app, length_app. Qed.

Lemma releases_tester_warning (source : Z) :
  releases (tester_warning source) = 0%nat.
Proof. unfold tester_warning. now destruct (source =? 0x13). Qed.

Lemma allocations_tester_warning (source : Z) :
  allocations (tester_warning source) = 0%nat.
Proof. unfold tester_warning. now destruct (source =? 0x13). Qed.

Section StartMore.
Context {hdr : DiagHeaders}.

Lemma startcomms_success_run (flags bitrate target source : Z) (o : oracle)
    (s : state) :
  Z.land (l1flags (conn s)) DIAG_L1_DOESFULLINIT <> 0 ->
  Z.land (l1flags (conn s)) DIAG_L1_DOESL2CKSUM <> 0 ->
  Z.land flags DIAG_L2_TYPE_INITMASK = DIAG_L2_TYPE_SLOWINIT ->
  o_calloc_ok o = true ->
  o_setspeed o = 0 ->
  0 <= o_initbus o ->
  dl2p_6227_startcomms flags bitrate target source o s
  = Ret 0 {| conn := started_conn bitrate target source (conn s);
             trace := trace s ++ handshake_events bitrate target source |}.
Proof.
  intros Hfull Hck Hmode Hcalloc Hspeed Hinit.
  unfold dl2p_6227_startcomms.
  unfold bind at 1, get_conn at 1.
  replace ((Z.land (l1flags (conn s)) DIAG_L1_DOESFULLINIT =? 0)
           || (Z.land (l1flags (conn s)) DIAG_L1_DOESL2CKSUM =? 0))
    with false
    by (symmetry; apply orb_false_iff; split; now apply Z.eqb_neq).
  replace (Z.land flags DIAG_L2_TYPE_INITMASK =? DIAG_L2_TYPE_SLOWINIT)
    with true by (symmetry; now apply Z.eqb_eq).
  cbn [negb].
  unfold diag_calloc, diag_l2_ioctl, fprintf_stderr, diag_os_millisleep.
  unfold bind, emit, ask, get_conn, modify_conn, ret.
  rewrite Hcalloc, Hspeed.
  unfold handshake_events, tester_warning, setspeed_event, initbus_event,
    started_conn, session_of, start_bitrate.
  destruct (source =? 0x13); cbn -[Z.land u8 with_parity Z.ltb];
    replace (o_initbus o <? 0) with false
      by (symmetry; apply Z.ltb_ge; lia);
    cbn -[Z.land u8 with_parity];
    repeat rewrite <- app_assoc; reflexivity.
Qed.

(** X16.  A handshake that goes through does, in this order: allocate the
    session state, warn if the tester address is not 0x13, set the speed
    (10400 baud when the caller gave 0) at 8 data bits, 1 stop bit, no
    parity, flush the input, wait 300 ms, run the 5-baud initialisation
    with the target address in odd parity.  It leaves the two addresses as
    bytes in the session state, the bit rate and D3 B0 in the connection,
    and the timing parameters and capability flags untouched. *)
Theorem startcomms_handshake_sequence (flags bitrate target source : Z)
    (o : oracle) (s : state) :
  Z.land (l1flags (conn s)) DIAG_L1_DOESFULLINIT <> 0 ->
  Z.land (l1flags (conn s)) DIAG_L1_DOESL2CKSUM <> 0 ->
  Z.land flags DIAG_L2_TYPE_INITMASK = DIAG_L2_TYPE_SLOWINIT ->
  o_calloc_ok o = true ->
  o_setspeed o = 0 ->
  0 <= o_initbus o ->
  exists s',
    dl2p_6227_startcomms flags bitrate target source o s = Ret 0 s'
    /\ trace s'
       = trace s ++ [EvCalloc] ++ tester_warning source
         ++ [EvIoctl (DIAG_IOCTL_SETSPEED
                        {| speed := if bitrate =? 0 then 10400 else bitrate;
                           databits := diag_databits_8;
                           stopbits := diag_stopbits_1;
                           parflag := diag_par_n |});
             EvIoctl DIAG_IOCTL_IFLUSH;
             EvMillisleep 300;
             EvIoctl (DIAG_IOCTL_INITBUS DIAG_L1_INITBUS_5BAUD
                                         (with_parity target diag_par_o))]
    /\ diag_l2_proto_data (conn s')
       = Some {| srcaddr := u8 source; dstaddr := u8 target |}
    /\ diag_l2_speed (conn s') = (if bitrate =? 0 then 10400 else bitrate)
    /\ diag_l2_kb1 (conn s') = 0xd3 /\ diag_l2_kb2 (conn s') = 0xb0
    /\ diag_l2_p3min (conn s') = diag_l2_p3min (conn s)
    /\ diag_l2_p4min (conn s') = diag_l2_p4min (conn s)
    /\ l1flags (conn s') = l1flags (conn s).
Proof.
  intros Hfull Hck Hmode Hcalloc Hspeed Hinit.
  eexists. split.
  - now apply startcomms_success_run.
  - cbn [conn trace started_conn diag_l2_proto_data diag_l2_speed
         diag_l2_kb1 diag_l2_kb2 diag_l2_p3min diag_l2_p4min l1flags].
    repeat split.
Qed.

(** X17.  With both capabilities present, an init mode other than slow-init
    makes [dl2p_6227_startcomms] return the init-not-supported error at
    once: nothing is printed, allocated or sent, the connection is as
    before. *)
Theorem startcomms_rejects_init_mode (flags bitrate target source : Z)
    (o : oracle) (s : state) :
  Z.land (l1flags (conn s)) DIAG_L1_DOESFULLINIT <> 0 ->
  Z.land (l1flags (conn s)) DIAG_L1_DOESL2CKSUM <> 0 ->
  Z.land flags DIAG_L2_TYPE_INITMASK <> DIAG_L2_TYPE_SLOWINIT ->
  dl2p_6227_startcomms flags bitrate target source o s
  = Ret DIAG_ERR_INIT_NOTSUPP s.
Proof.
  intros Hfull Hck Hmode.
  unfold dl2p_6227_startcomms. unfold bind at 1, get_conn at 1.
  replace ((Z.land (l1flags (conn s)) DIAG_L1_DOESFULLINIT =? 0)
           || (Z.land (l1flags (conn s)) DIAG_L1_DOESL2CKSUM =? 0))
    with false
    by (symmetry; apply orb_false_iff; split; now apply Z.eqb_neq).
  replace (Z.land flags DIAG_L2_TYPE_INITMASK =? DIAG_L2_TYPE_SLOWINIT)
    with false by (symmetry; now apply Z.eqb_neq).
  reflexivity.
Qed.

(** X18.  When the session state cannot be allocated,
    [dl2p_6227_startcomms] returns the allocation error before it touches
    the connection or the transport. *)
Theorem startcomms_allocation_failure (flags bitrate target source : Z)
    (o : oracle) (s : state) :
  Z.land (l1flags (conn s)) DIAG_L1_DOESFULLINIT <> 0 ->
  Z.land (l1flags (conn s)) DIAG_L1_DOESL2CKSUM <> 0 ->
  Z.land flags DIAG_L2_TYPE_INITMASK = DIAG_L2_TYPE_SLOWINIT ->
  o_calloc_ok o = false ->
  dl2p_6227_startcomms flags bitrate target source o s
  = Ret DIAG_ERR_NOMEM (append_trace s [EvCalloc]).
Proof.
  intros Hfull Hck Hmode Hcalloc.
  unfold dl2p_6227_startcomms. unfold bind at 1, get_conn at 1.
  replace ((Z.land (l1flags (conn s)) DIAG_L1_DOESFULLINIT =? 0)
           || (Z.land (l1flags (conn s)) DIAG_L1_DOESL2CKSUM =? 0))
    with false
    by (symmetry; apply orb_false_iff; split; now apply Z.eqb_neq).
  replace (Z.land flags DIAG_L2_TYPE_INITMASK =? DIAG_L2_TYPE_SLOWINIT)
    with true by (symmetry; now apply Z.eqb_eq).
  cbn [negb]. unfold diag_calloc, bind, emit, ask, ret.
  now rewrite Hcalloc.
Qed.

(** X19.  When the speed set-up reports anything but 0, or the bus
    initialisation a negative value, [dl2p_6227_startcomms] returns that
    value, which is not 0, after releasing the session state and clearing
    the connection's reference.  After a failed speed set-up there is no
    flush, no settle delay and no bus initialisation.  The bit rate stays
    in the connection. *)
Theorem startcomms_backs_out (flags bitrate target source : Z) (o : oracle)
    (s : state) :
  Z.land (l1flags (conn s)) DIAG_L1_DOESFULLINIT <> 0 ->
  Z.land (l1flags (conn s)) DIAG_L1_DOESL2CKSUM <> 0 ->
  Z.land flags DIAG_L2_TYPE_INITMASK = DIAG_L2_TYPE_SLOWINIT ->
  o_calloc_ok o = true ->
  o_setspeed o <> 0 \/ o_initbus o < 0 ->
  exists s',
    dl2p_6227_startcomms flags bitrate target source o s
    = Ret (if o_setspeed o =? 0 then o_initbus o else o_setspeed o) s'
    /\ (if o_setspeed o =? 0 then o_initbus o else o_setspeed o) <> 0
    /\ diag_l2_proto_data (conn s') = None
    /\ diag_l2_speed (conn s') = start_bitrate bitrate
    /\ trace s' = trace s ++ backout_events bitrate target source o.
Proof.
  intros Hfull Hck Hmode Hcalloc Hfail.
  unfold dl2p_6227_startcomms.
  unfold bind at 1, get_conn at 1.
  replace ((Z.land (l1flags (conn s)) DIAG_L1_DOESFULLINIT =? 0)
           || (Z.land (l1flags (conn s)) DIAG_L1_DOESL2CKSUM =? 0))
    with false
    by (symmetry; apply orb_false_iff; split; now apply Z.eqb_neq).
  replace (Z.land flags DIAG_L2_TYPE_INITMASK =? DIAG_L2_TYPE_SLOWINIT)
    with true by (symmetry; now apply Z.eqb_eq).
  cbn [negb].
  unfold diag_calloc, diag_l2_ioctl, startcomms_err, fprintf_stderr,
    diag_os_millisleep, free, diag_iseterr.
  unfold bind, emit, ask, get_conn, modify_conn, ret.
  rewrite Hcalloc.
  unfold backout_events, tester_warning, setspeed_event, initbus_event,
    session_of, start_bitrate.
  destruct (o_setspeed o =? 0) eqn:Hs.
  - assert (Hi : o_initbus o < 0)
      by (destruct Hfail as [H|H]; [apply Z.eqb_eq in Hs; lia|exact H]).
    destruct (source =? 0x13); cbn -[Z.land u8 with_parity Z.ltb];
      replace (o_initbus o <? 0) with true
        by (symmetry; apply Z.ltb_lt; lia);
      eexists; (split; [reflexivity|]); (split; [lia|]);
      cbn [conn trace set_proto_data diag_l2_proto_data diag_l2_speed
           set_keybytes set_speed];
      (split; [reflexivity|]); (split; [reflexivity|]);
      repeat rewrite <- app_assoc; reflexivity.
  - apply Z.eqb_neq in Hs.
    destruct (source =? 0x13); cbn -[Z.land u8 with_parity];
      eexists; (split; [reflexivity|]); (split; [lia|]);
      cbn [conn trace set_proto_data diag_l2_proto_data diag_l2_speed
           set_keybytes set_speed];
      (split; [reflexivity|]); (split; [reflexivity|]);
      repeat rewrite <- app_assoc; reflexivity.
Qed.

(** X20.  [dl2p_6227_startcomms] always returns, and never leaves session
    state behind that the connection does not refer to.  Either nothing was
    allocated and the connection is as before; or the state was allocated,
    0 is returned and the connection refers to it; or the state was
    allocated and released again, the connection's reference is null and
    the return value is not 0. *)
Theorem startcomms_never_leaks (flags bitrate target source : Z) (o : oracle)
    (s : state) :
  exists r s',
    dl2p_6227_startcomms flags bitrate target source o s = Ret r s'
    /\ ((conn s' = conn s
         /\ releases (trace s') = releases (trace s)
         /\ (allocations (trace s') = allocations (trace s)
             \/ o_calloc_ok o = false))
        \/ (r = 0
            /\ diag_l2_proto_data (conn s') = Some (session_of target source)
            /\ o_calloc_ok o = true
            /\ allocations (trace s') = S (allocations (trace s))
            /\ releases (trace s') = releases (trace s))
        \/ (r <> 0
            /\ diag_l2_proto_data (conn s') = None
            /\ o_calloc_ok o = true
            /\ allocations (trace s') = S (allocations (trace s))
            /\ releases (trace s') = S (releases (trace s)))).
Proof.
  unfold dl2p_6227_startcomms. unfold bind at 1, get_conn at 1.
  destruct ((Z.land (l1flags (conn s)) DIAG_L1_DOESFULLINIT =? 0)
            || (Z.land (l1flags (conn s)) DIAG_L1_DOESL2CKSUM =? 0)).
  { do 2 eexists. split; [reflexivity|]. left.
    cbn [conn trace]. unfold releases, allocations.
    rewrite !filter_app. cbn. rewrite !app_nil_r. auto. }
  destruct (Z.land flags DIAG_L2_TYPE_INITMASK =? DIAG_L2_TYPE_SLOWINIT);
    cbn [negb]; [|do 2 eexists; split; [reflexivity|]; left; auto].
  unfold diag_calloc, diag_l2_ioctl, startcomms_err, fprintf_stderr,
    diag_os_millisleep, free, diag_iseterr.
  unfold bind, emit, ask, get_conn, modify_conn, ret.
  destruct (o_calloc_ok o) eqn:Hcalloc.
  2:{ do 2 eexists. split; [reflexivity|]. left. cbn [conn trace].
      unfold releases. rewrite filter_app. cbn. rewrite app_nil_r. auto. }
  destruct (o_setspeed o =? 0) eqn:Hs, (o_initbus o <? 0) eqn:Hi,
    (source =? 0x13);
    cbn -[Z.land u8 with_parity Z.ltb]; rewrite ?Hi;
    cbn -[Z.land u8 with_parity Z.ltb];
    do 2 eexists; (split; [reflexivity|]); right;
    cbn [conn trace set_proto_data set_keybytes set_speed
         diag_l2_proto_data];
    unfold releases, allocations; rewrite !filter_app, !length_app;
    cbn [filter is_release is_calloc length app];
    apply Z.ltb_lt in Hi || apply Z.ltb_ge in Hi;
    apply Z.eqb_eq in Hs || apply Z.eqb_neq in Hs;
    first [ left; repeat split; first [reflexivity | lia]
          | right; repeat split; first [reflexivity | lia] ].
Qed.

(** X21.  After a handshake that went through, a message that leaves its
    addresses at zero is framed with the target and the tester address the
    handshake was given, as bytes, and paced with the connection's P3min
    and P4min. *)
Theorem start_then_send (flags bitrate target source : Z) (o o2 : oracle)
    (s : state) (msg : diag_msg) :
  Z.land (l1flags (conn s)) DIAG_L1_DOESFULLINIT <> 0 ->
  Z.land (l1flags (conn s)) DIAG_L1_DOESL2CKSUM <> 0 ->
  Z.land flags DIAG_L2_TYPE_INITMASK = DIAG_L2_TYPE_SLOWINIT ->
  o_calloc_ok o = true ->
  o_setspeed o = 0 ->
  0 <= o_initbus o ->
  1 <= len msg <= 14 ->
  Z.of_nat (length (data msg)) = len msg ->
  dest msg = 0 -> src msg = 0 ->
  exists s1 s2,
    dl2p_6227_startcomms flags bitrate target source o s = Ret 0 s1
    /\ dl2p_6227_send msg o2 s1 = Ret (o_l1_send o2) s2
    /\ conn s2 = conn s1
    /\ trace s2
       = trace s1
         ++ [EvMillisleep (diag_l2_p3min (conn s));
             EvL1Send (u8 (u32 (0x80 + len msg + 1))
                       :: u8 target :: u8 source :: data msg)
                      (diag_l2_p4min (conn s))].
Proof.
  intros Hfull Hck Hmode Hcalloc Hspeed Hinit HL Hdata Hd Hs.
  do 2 eexists. split; [now apply startcomms_success_run|].
  split.
  - apply (send_run msg (session_of target source)); [exact HL|exact Hdata|].
    reflexivity.
  - split; [reflexivity|]. cbn [conn trace started_conn diag_l2_p3min
                                diag_l2_p4min].
    unfold frame_dest, frame_src. rewrite Hd, Hs.
    cbn [Z.eqb session_of dstaddr srcaddr].
    rewrite <- app_assoc, !(u8_small (u8 _)) by apply u8_range.
    reflexivity.
Qed.

(** X22.  Start and stop balance: after a handshake that went through, a
    stop whose frame the transport refuses, or whose reply arrives, returns
    0, clears the connection's reference, and the last thing it does is
    release the session state the handshake allocated; over the two calls
    there is one allocation and one release. *)
Theorem start_then_stop (flags bitrate target source : Z) (o o2 : oracle)
    (s : state) :
  Z.land (l1flags (conn s)) DIAG_L1_DOESFULLINIT <> 0 ->
  Z.land (l1flags (conn s)) DIAG_L1_DOESL2CKSUM <> 0 ->
  Z.land flags DIAG_L2_TYPE_INITMASK = DIAG_L2_TYPE_SLOWINIT ->
  o_calloc_ok o = true ->
  o_setspeed o = 0 ->
  0 <= o_initbus o ->
  o_l1_send o2 < 0
  \/ (0 <= o_l1_send o2
      /\ 4 <= o_l1_recv o2 <= 18
      /\ Z.of_nat (length (o_l1_recv_bytes o2)) = o_l1_recv o2
      /\ o_allocmsg_ok o2 = true) ->
  exists s1 s3 t,
    dl2p_6227_startcomms flags bitrate target source o s = Ret 0 s1
    /\ dl2p_6227_stopcomms o2 s1 = Ret 0 s3
    /\ diag_l2_proto_data (conn s3) = None
    /\ trace s3 = t ++ [EvFree (session_of target source)]
    /\ allocations (trace s3) = S (allocations (trace s))
    /\ releases (trace s3) = S (releases (trace s)).
Proof.
  intros Hfull Hck Hmode Hcalloc Hspeed Hinit Hstop.
  pose proof (startcomms_success_run flags bitrate target source o s
                Hfull Hck Hmode Hcalloc Hspeed Hinit) as Hstart.
  set (s1 := {| conn := started_conn bitrate target source (conn s);
                trace := trace s
                         ++ handshake_events bitrate target source |}) in *.
  assert (Hdp : diag_l2_proto_data (conn s1)
                = Some (session_of target source)) by reflexivity.
  assert (Hreq : exists rx err s2,
             dl2p_6227_request (control_msg 0xa0) o2 s1 = Ret (rx, err) s2
             /\ is_wild rx = false).
  { destruct Hstop as [Hneg|(Hpos & Hrv & Hlen & Hok)].
    - pose proof (send_run (control_msg 0xa0) _ o2 s1 ltac:(cbn; lia)
                    eq_refl Hdp) as Hrun.
      destruct (request_send_failure _ _ _ _ _ Hrun Hneg) as [Hr _].
      do 3 eexists. split; [exact Hr|reflexivity].
    - pose proof (request_reply_run (control_msg 0xa0) _ o2 s1
                    ltac:(cbn; lia) eq_refl Hdp Hpos Hrv Hlen Hok) as Hr.
      destruct (o_dupmsg_ok o2);
        do 3 eexists; (split; [exact Hr|reflexivity]). }
  destruct Hreq as (rx & err & s2 & Hreq & Hrx).
  destruct (request_footprint (control_msg 0xa0) o2 s1)
    as (Hc & t & Ht & HP).
  rewrite Hreq in Hc, Ht. cbn [final_state] in Hc, Ht.
  destruct (stopcomms_finish_run rx err o2 s2 Hrx)
    as (s3 & Hrun & Hnone & Htr).
  rewrite Hc, Hdp in Htr. cbn [stop_release_state] in Htr.
  exists s1, s3, (trace s2 ++ stop_wait rx err ++ stop_release_reply rx).
  split; [exact Hstart|]. split.
  { unfold dl2p_6227_stopcomms, bind. rewrite Hreq. exact Hrun. }
  split; [exact Hnone|]. split.
  { rewrite Htr. now rewrite <- !app_assoc. }
  rewrite Htr, Ht. unfold s1. cbn [trace]. unfold handshake_events.
  rewrite !allocations_app, !releases_app, allocations_tester_warning,
    releases_tester_warning, releases_stop_wait, releases_stop_release_reply,
    (releases_request_events t HP), (allocations_request_events t HP).
  assert (Hw : allocations (stop_wait rx err) = 0%nat)
    by (unfold stop_wait; now destruct (is_null rx || negb (err =? 0))).
  assert (Hr : allocations (stop_release_reply rx) = 0%nat)
    by (unfold stop_release_reply; now destruct (is_null rx)).
  rewrite Hw, Hr. cbn. lia.
Qed.

End StartMore.

Section StartMoreExamples.
#[local] Existing Instance freediag_headers.

Lemma startcomms_handshake_sequence_witness :
  exists s',
    dl2p_6227_startcomms 0 0 0x10 0xF1 reply_oracle (sample_state None)
    = Ret 0 s'
    /\ trace s'
       = [EvCalloc; EvStderr (WarnTesterAddress 0xF1);
          EvIoctl (DIAG_IOCTL_SETSPEED
                     {| speed := 10400; databits := diag_databits_8;
                        stopbits := diag_stopbits_1; parflag := diag_par_n |});
          EvIoctl DIAG_IOCTL_IFLUSH; EvMillisleep 300;
          EvIoctl (DIAG_IOCTL_INITBUS 2 0x10)]
    /\ diag_l2_proto_data (conn s')
       = Some {| srcaddr := 0xF1; dstaddr := 0x10 |}.
Proof.
  destruct (startcomms_handshake_sequence 0 0 0x10 0xF1 reply_oracle
              (sample_state None))
    as (s' & Hrun & Htr & Hdp & _);
    try first [reflexivity | discriminate | cbn; lia].
  exists s'. split; [exact Hrun|]. split; [exact Htr|exact Hdp].
Defined.

Lemma startcomms_rejects_init_mode_witness :
  dl2p_6227_startcomms 1 0 0x10 0x13 reply_oracle (sample_state None)
  = Ret (-4) (sample_state None).
Proof.
  assert (H1 : Z.land (l1flags (conn (sample_state None)))
                      DIAG_L1_DOESFULLINIT <> 0) by (vm_compute; discriminate).
  assert (H2 : Z.land (l1flags (conn (sample_state None)))
                      DIAG_L1_DOESL2CKSUM <> 0) by (vm_compute; discriminate).
  assert (H3 : Z.land 1 DIAG_L2_TYPE_INITMASK <> DIAG_L2_TYPE_SLOWINIT)
    by (vm_compute; discriminate).
  exact (startcomms_rejects_init_mode 1 0 0x10 0x13 reply_oracle
           (sample_state None) H1 H2 H3).
Defined.

Lemma startcomms_allocation_failure_witness :
  dl2p_6227_startcomms 0 0 0x10 0x13 no_memory_oracle (sample_state None)
  = Ret (-3) (append_trace (sample_state None) [EvCalloc]).
Proof.
  assert (H1 : Z.land (l1flags (conn (sample_state None)))
                      DIAG_L1_DOESFULLINIT <> 0) by (vm_compute; discriminate).
  assert (H2 : Z.land (l1flags (conn (sample_state None)))
                      DIAG_L1_DOESL2CKSUM <> 0) by (vm_compute; discriminate).
  exact (startcomms_allocation_failure 0 0 0x10 0x13 no_memory_oracle
           (sample_state None) H1 H2 eq_refl eq_refl).
Defined.

Lemma startcomms_backs_out_witness :
  (exists s',
     dl2p_6227_startcomms 0 0 0x10 0x13 setspeed_error_oracle
                          (sample_state None) = Ret (-6) s'
     /\ -6 <> 0
     /\ diag_l2_proto_data (conn s') = None
     /\ diag_l2_speed (conn s') = 10400
     /\ trace s'
        = [EvCalloc;
           EvIoctl (DIAG_IOCTL_SETSPEED
                      {| speed := 10400; databits := diag_databits_8;
                         stopbits := diag_stopbits_1;
                         parflag := diag_par_n |});
           EvFree sample_session])
  /\ (exists s',
        dl2p_6227_startcomms 0 0 0x10 0x13 initbus_error_oracle
                             (sample_state None) = Ret (-8) s'
        /\ diag_l2_proto_data (conn s') = None).
Proof.
  split.
  - apply (startcomms_backs_out 0 0 0x10 0x13 setspeed_error_oracle
             (sample_state None));
      first [reflexivity | discriminate | left; discriminate].
  - destruct (startcomms_backs_out 0 0 0x10 0x13 initbus_error_oracle
                (sample_state None))
      as (s' & Hrun & _ & Hnone & _);
      try first [reflexivity | discriminate | right; reflexivity].
    exists s'. split; [exact Hrun|exact Hnone].
Defined.

Lemma start_then_send_witness :
  exists s1 s2,
    dl2p_6227_startcomms 0 0 0x10 0x13 reply_oracle (sample_state None)
    = Ret 0 s1
    /\ dl2p_6227_send default_request quiet_oracle s1 = Ret 0 s2
    /\ conn s2 = conn s1
    /\ trace s2
       = trace s1 ++ [EvMillisleep 5;
                      EvL1Send [0x83; 0x10; 0x13; 0xB9; 0xF0] 0].
Proof.
  apply (start_then_send 0 0 0x10 0x13 reply_oracle quiet_oracle
           (sample_state None) default_request);
    first [reflexivity | discriminate | cbn; lia].
Defined.

Lemma start_then_stop_witness :
  exists s1 s3 t,
    dl2p_6227_startcomms 0 0 0x10 0x13 reply_oracle (sample_state None)
    = Ret 0 s1
    /\ dl2p_6227_stopcomms reply_oracle s1 = Ret 0 s3
    /\ diag_l2_proto_data (conn s3) = None
    /\ trace s3 = t ++ [EvFree sample_session]
    /\ allocations (trace s3) = 1%nat
    /\ releases (trace s3) = 1%nat.
Proof.
  apply (start_then_stop 0 0 0x10 0x13 reply_oracle reply_oracle
           (sample_state None));
    first [reflexivity | discriminate | cbn; lia
          | vm_compute; discriminate
          | right; cbn; repeat split; first [reflexivity | lia | discriminate]].
Defined.

End StartMoreExamples.
